(** * terra_notebook_utils.drs: resolution of DRS identifiers and copy planning

    A shallow embedding of [terra_notebook_utils/drs.py].  Python values that
    come out of a decoded JSON body are kept as [json] values, with the
    dynamic operations the module applies to them ([in], subscription,
    [.get], iteration, [.startswith]) written out together with the exception
    each raises on a value of the wrong type.  Functions that only compute
    live in the [result] monad; functions that talk to the token provider,
    the resolver, the workspace service or the copy queue thread a [World]. *)

From Stdlib Require Import String Ascii List ZArith Bool Lia.
From Stdlib Require Import Numbers.DecimalString.
Import ListNotations.
Set Warnings "-register-all".
Open Scope list_scope.
Open Scope string_scope.

(** ** Python string operations used by the module *)

Module PyStr.

Definition slash : ascii := "/"%char.

(** [s[n:]] *)
Fixpoint drop (n : nat) (s : string) : string :=
  match n, s with
  | O, _ => s
  | S _, EmptyString => EmptyString
  | S n', String _ s' => drop n' s'
  end.

(** [s.startswith(p)] *)
Definition startswith (s p : string) : bool := String.prefix p s.

(** [s.endswith("/")] *)
Fixpoint endswith_slash (s : string) : bool :=
  match s with
  | EmptyString => false
  | String c EmptyString => Ascii.eqb c slash
  | String _ s' => endswith_slash s'
  end.

(** [s[:-1]] *)
Fixpoint drop_last (s : string) : string :=
  match s with
  | EmptyString => EmptyString
  | String _ EmptyString => EmptyString
  | String c s' => String c (drop_last s')
  end.

(** [s.split("/", 1)]: one part when [s] has no slash, otherwise the text
    before the first slash and the text after it. *)
Fixpoint split1 (s : string) : list string :=
  match s with
  | EmptyString => [EmptyString]
  | String c s' =>
      if Ascii.eqb c slash then [EmptyString; s']
      else match split1 s' with
           | [a; b] => [String c a; b]
           | _ => [s]
           end
  end.

Fixpoint has_slash (s : string) : bool :=
  match s with
  | EmptyString => false
  | String c s' => Ascii.eqb c slash || has_slash s'
  end.

(** [s.rsplit("/", 1)[-1]]: the text after the last slash, all of [s] when
    it has none. *)
Fixpoint last_segment (s : string) : string :=
  match s with
  | EmptyString => EmptyString
  | String _ s' => if has_slash s then last_segment s' else s
  end.

(** [k in s] for two strings: [k] occurs in [s]. *)
Fixpoint occurs (k s : string) : bool :=
  String.prefix k s ||
  match s with
  | EmptyString => false
  | String _ s' => occurs k s'
  end.

(** The characters of a string, as Python iterates over it. *)
Fixpoint chars (s : string) : list string :=
  match s with
  | EmptyString => []
  | String c s' => String c EmptyString :: chars s'
  end.

(** [str(n)] for an integer. *)
Definition of_Z (n : Z) : string := NilZero.string_of_int (Z.to_int n).

End PyStr.

(** ** Decoded JSON values and exceptions *)

(** What [Response.json()] returns: [None], a [bool], a number, a [str], a
    [list] or a [dict].  A [dict] is kept as its items in insertion order;
    its keys are distinct, and a lookup takes the first binding.  Numbers are
    the integers (sizes are byte counts). *)
Inductive json : Type :=
| JNull
| JBool (b : bool)
| JNum (n : Z)
| JStr (s : string)
| JArr (l : list json)
| JObj (d : list (string * json)).

Inductive exn : Type :=
| DRSResolutionError (msg : string)
| RuntimeError (msg : string)
| AssertionError (msg : string)
| ValueError (msg : string)
| KeyError (k : string)
| IndexError
| TypeError
| AttributeError
| JSONDecodeError
| ValidationError
| ExternalError (msg : string).

Inductive result (A : Type) : Type :=
| Ok (a : A)
| Raise (e : exn).
Arguments Ok {A} a.
Arguments Raise {A} e.

Definition rbind {A B : Type} (r : result A) (k : A -> result B) : result B :=
  match r with
  | Ok a => k a
  | Raise e => Raise e
  end.

Declare Scope result_scope.
Delimit Scope result_scope with result.
Notation "x <- r ;; k" := (rbind r (fun x => k))
  (at level 100, r at next level, right associativity) : result_scope.
Notation "' p <- r ;; k" := (rbind r (fun p => k))
  (at level 100, p pattern, r at next level, right associativity) : result_scope.

Module Py.

Fixpoint lookup (k : string) (d : list (string * json)) : option json :=
  match d with
  | [] => None
  | (k', v) :: d' => if String.eqb k k' then Some v else lookup k d'
  end.

Definition is_str (k : string) (v : json) : bool :=
  match v with
  | JStr s => String.eqb k s
  | _ => false
  end.

(** Truth value of an object, as [or], [not] and [if] test it. *)
Definition truthy (v : json) : bool :=
  match v with
  | JNull => false
  | JBool b => b
  | JNum n => negb (Z.eqb n 0)
  | JStr s => negb (String.eqb s "")
  | JArr l => match l with [] => false | _ => true end
  | JObj d => match d with [] => false | _ => true end
  end.

(** [k in v] for a string [k]: key membership in a dict, element
    membership in a list, substring test on a string; [TypeError] on a
    value that is not a container. *)
Definition contains (k : string) (v : json) : result bool :=
  match v with
  | JObj d => Ok (match lookup k d with Some _ => true | None => false end)
  | JArr l => Ok (existsb (is_str k) l)
  | JStr s => Ok (PyStr.occurs k s)
  | _ => Raise TypeError
  end.

(** [v[k]] for a string [k]: [KeyError] on a dict without the key,
    [TypeError] on everything that is not a dict. *)
Definition getitem (v : json) (k : string) : result json :=
  match v with
  | JObj d => match lookup k d with Some x => Ok x | None => Raise (KeyError k) end
  | _ => Raise TypeError
  end.

(** [v.get(k)]: [None] for a missing key; only a dict has the method. *)
Definition get (v : json) (k : string) : result json :=
  match v with
  | JObj d => Ok (match lookup k d with Some x => x | None => JNull end)
  | _ => Raise AttributeError
  end.

(** The elements a [for] loop over [v] visits. *)
Definition iter (v : json) : result (list json) :=
  match v with
  | JArr l => Ok l
  | JObj d => Ok (map (fun kv => JStr (fst kv)) d)
  | JStr s => Ok (map JStr (PyStr.chars s))
  | _ => Raise TypeError
  end.

End Py.

(** ** The canonical record *)

(** [DRSInfo = namedtuple("DRSInfo", "credentials access_url bucket_name key
    name size updated")]; the fields hold whatever the resolver sent. *)
Record DRSInfo : Type := mkDRSInfo {
  credentials : json;
  access_url : json;
  bucket_name : json;
  key : json;
  name : json;
  size : json;
  updated : json
}.

(** Modelled from the spec: the constant [_GS_SCHEMA] is imported from the
    package root, which is not part of the source tree; it is the storage
    scheme prefix, [gs://] in the spec's examples and in the literal tests of
    this module. *)
Definition _GS_SCHEMA : string := "gs://".

(** ** Collaborators *)

(** [blobstore.progress.Indicator] *)
Inductive Indicator : Type := notebook_bar | bar | log.

(** Blob references the module builds: [GSBlob] called with four arguments,
    [GSBlob] called with a bucket and a key only, and whatever
    [copy_client.blob_for_url] makes of a path or URL. *)
Inductive Blob : Type :=
| GSBlob (bucket key creds : json) (billing_project : option string)
| GSBlobBare (bucket key : json)
| BlobForUrl (url : string).

(** What the module does to the outside, in the order it does it. *)
Inductive event : Type :=
| GetAccessToken
| HttpPost (url authorization : string) (body : json)
| HttpPut (url authorization : string)
| LogDebug (msg : string)
| LogInfo (msg : string)
| LogWarning (msg : string)
| DoCopy (src dst : Blob) (multipart_threshold : Z) (indicator_type : Indicator).

(** [requests.Response], as far as the module reads it: the status, the raw
    body, and what [.json()] makes of the body. *)
Record Response : Type := mkResponse {
  status_code : Z;
  content : string;
  json_body : result json
}.

(** The environment: the constants imported from the package root and the
    answers of the collaborators.  An answer may depend on everything that
    happened before, so two identical requests need not get the same
    response, and a collaborator may raise. *)
Record Env : Type := mkEnv {
  MARTHA_URL : string;
  TERRA_DEPLOYMENT_ENV : string;
  get_access_token : list event -> result string;
  http_post : list event -> string -> string -> json -> result Response;
  http_put : list event -> string -> string -> result Response;
  quote : string -> string;
  py_str : json -> string;
  isdir : string -> bool;
  abspath : string -> string;
  copy_client_do_copy : list event -> Blob -> Blob -> Z -> Indicator -> result unit;
  multipart_threshold : Z
}.

(** A unit of work on the copy queue: the arguments [DRSCopyClient.copy]
    passes to [_queue.put] after [_do_copy_drs]. *)
Record Job : Type := mkJob {
  job_drs_uri : json;
  job_dst : json;
  job_multipart_threshold : Z;
  job_indicator_type : Indicator;
  job_workspace : option string;
  job_workspace_namespace : option string
}.

(** The mutable state of the process: the events so far, the keys held by
    the [lru_cache] of [enable_requester_pays] (most recently used first)
    and the jobs put on the copy queue. *)
Record World : Type := mkWorld {
  trace : list event;
  rp_cache : list (option string * option string);
  queue : list Job
}.

Definition M (A : Type) : Type := World -> result A * World.

Definition ret {A : Type} (a : A) : M A := fun w => (Ok a, w).

Definition raise {A : Type} (e : exn) : M A := fun w => (Raise e, w).

Definition bind {A B : Type} (m : M A) (k : A -> M B) : M B :=
  fun w => match m w with
           | (Ok a, w') => k a w'
           | (Raise e, w') => (Raise e, w')
           end.

Definition lift {A : Type} (r : result A) : M A := fun w => (r, w).

Definition emit (e : event) : M unit :=
  fun w => (Ok tt, mkWorld (trace w ++ [e])%list (rp_cache w) (queue w)).

(** Ask a collaborator whose answer depends on the history. *)
Definition ask {A : Type} (f : list event -> result A) : M A :=
  fun w => (f (trace w), w).

Declare Scope world_scope.
Delimit Scope world_scope with world.
Notation "x <~ m ;; k" := (bind m (fun x => k))
  (at level 100, m at next level, right associativity) : world_scope.
Notation "m ;;; k" := (bind m (fun _ => k))
  (at level 100, right associativity) : world_scope.

(** ** The module *)

Section Drs.

Variable env : Env.

Local Open Scope result_scope.

(** How an f-string renders a value: a [str] as itself, anything else
    through [str()]. *)
Definition fmt (v : json) : string :=
  match v with
  | JStr s => s
  | _ => py_str env v
  end.

(** How an f-string renders an [Optional[str]]. *)
Definition fmt_opt (o : option string) : string :=
  match o with
  | Some s => s
  | None => "None"
  end.

(** [_parse_gs_url] (lines 27-32).  The two-name unpacking of
    [split("/", 1)] raises [ValueError] when the split gives one part. *)
Definition _parse_gs_url (gs_url : string) : result (string * string) :=
  if PyStr.startswith gs_url _GS_SCHEMA then
    match PyStr.split1 (PyStr.drop (String.length _GS_SCHEMA) gs_url) with
    | [bucket_name; object_key] => Ok (bucket_name, object_key)
    | _ => Raise (ValueError "not enough values to unpack (expected 2, got 1)")
    end
  else
    Raise (RuntimeError ("Invalid gs url schema.  " ++ gs_url
                         ++ " does not start with " ++ _GS_SCHEMA)).

(** [_bucket_name_and_key] (lines 294-302).  [split("/", 1)] gives one or
    two parts; the other shapes of the list are there for the match to be
    total and behave as the indexing and the unpacking would. *)
Definition _bucket_name_and_key (gs_url : string) : result (string * string) :=
  if PyStr.startswith gs_url "gs://" then
    let parts := PyStr.split1 (PyStr.drop 5 gs_url) in
    match parts with
    | [] => Raise IndexError
    | [p0] => Ok (p0, "")
    | [p0; p1] => if String.eqb p1 "" then Ok (p0, "") else Ok (p0, p1)
    | p0 :: p1 :: _ =>
        if String.eqb p1 "" then Ok (p0, "")
        else Raise (ValueError "too many values to unpack (expected 2)")
    end
  else Raise (AssertionError "").

(** [_get_drs_gs_creds] (lines 94-99). *)
Definition _get_drs_gs_creds (response : json) : result json :=
  service_account_info <- Py.get response "googleServiceAccount" ;;
  match service_account_info with
  | JNull => Ok JNull
  | _ => Py.getitem service_account_info "data"
  end.

(** The loop of lines 109-113: the first element that has a ['url'] whose
    value starts with the storage scheme; [None] when the loop ends without
    a [break]. *)
Fixpoint first_gs_url (urls : list json) : result (option string) :=
  match urls with
  | [] => Ok None
  | url_info :: rest =>
      has_url <- Py.contains "url" url_info ;;
      if has_url then
        u <- Py.getitem url_info "url" ;;
        match u with
        | JStr s => if PyStr.startswith s _GS_SCHEMA then Ok (Some s)
                    else first_gs_url rest
        | _ => Raise AttributeError
        end
      else first_gs_url rest
  end.

Definition no_gs_url (drs_url : string) : exn :=
  DRSResolutionError ("No GS url found for DRS uri '" ++ drs_url ++ "'").

(** [_drs_info_from_martha_v2] (lines 101-126). *)
Definition _drs_info_from_martha_v2 (drs_url : string) (drs_data : json)
  : result DRSInfo :=
  dos <- Py.getitem drs_data "dos" ;;
  has_data_object <- Py.contains "data_object" dos ;;
  if has_data_object then
    data_object <- Py.getitem dos "data_object" ;;
    has_urls <- Py.contains "urls" data_object ;;
    if negb has_urls then Raise (no_gs_url drs_url)
    else
      urls <- Py.getitem data_object "urls" ;;
      url_infos <- Py.iter urls ;;
      found <- first_gs_url url_infos ;;
      match found with
      | None => Raise (no_gs_url drs_url)
      | Some data_url =>
          '(bucket, object_key) <- _parse_gs_url data_url ;;
          creds <- _get_drs_gs_creds drs_data ;;
          n <- Py.get data_object "name" ;;
          sz <- Py.get data_object "size" ;;
          upd <- Py.get data_object "updated" ;;
          Ok (mkDRSInfo creds JNull (JStr bucket) (JStr object_key) n sz upd)
      end
  else
    Raise (DRSResolutionError
             ("No metadata was returned for DRS uri '" ++ drs_url ++ "'")).

(** [_drs_info_from_martha_v3] (lines 128-139). *)
Definition _drs_info_from_martha_v3 (drs_url : string) (drs_data : json)
  : result DRSInfo :=
  has_gs_uri <- Py.contains "gsUri" drs_data ;;
  if negb has_gs_uri then Raise (no_gs_url drs_url)
  else
    creds <- _get_drs_gs_creds drs_data ;;
    a <- Py.get drs_data "accessUrl" ;;
    b <- Py.get drs_data "bucket" ;;
    k <- Py.get drs_data "name" ;;
    n <- Py.get drs_data "fileName" ;;
    sz <- Py.get drs_data "size" ;;
    upd <- Py.get drs_data "timeUpdated" ;;
    Ok (mkDRSInfo creds a b k n sz upd).

(** [info.name or info.key.rsplit("/", 1)[-1]] (lines 185 and 193). *)
Definition basename_of (info : DRSInfo) : result json :=
  if Py.truthy (name info) then Ok (name info)
  else match key info with
       | JStr k => Ok (JStr (PyStr.last_segment k))
       | _ => Raise AttributeError
       end.

(** [_resolve_bucket_target] (lines 180-189). *)
Definition _resolve_bucket_target (url : string) (info : DRSInfo)
  : result (string * json) :=
  '(bucket, pfx) <- _bucket_name_and_key url ;;
  if String.eqb pfx "" || PyStr.endswith_slash pfx then
    let pfx := if PyStr.endswith_slash pfx then PyStr.drop_last pfx else pfx in
    basename <- basename_of info ;;
    Ok (bucket,
        if String.eqb pfx "" then basename
        else JStr (pfx ++ "/" ++ fmt basename))
  else Ok (bucket, JStr pfx).

(** [os.path.join] of two components on a POSIX system. *)
Definition path_join (a b : string) : string :=
  if PyStr.startswith b "/" then b
  else if String.eqb a "" || PyStr.endswith_slash a then a ++ b
  else a ++ "/" ++ b.

(** [_resolve_local_target] (lines 191-195), with [os.path.sep = "/"]. *)
Definition _resolve_local_target (filepath : string) (info : DRSInfo)
  : result string :=
  if PyStr.endswith_slash filepath || isdir env filepath then
    filename <- basename_of info ;;
    match filename with
    | JStr f => Ok (path_join (abspath env filepath) f)
    | _ => Raise TypeError
    end
  else Ok filepath.

Local Open Scope world_scope.

(** A call to a collaborator: the request is recorded, then answered. *)
Definition call {A : Type} (e : event) (f : list event -> result A) : M A :=
  emit e ;;; ask f.

(** The body of [enable_requester_pays] (lines 37-54), below its
    decorator. *)
Definition enable_requester_pays_body
    (workspace_name workspace_namespace : option string) : M unit :=
  match workspace_name with
  | None => raise (AssertionError "")
  | Some ws =>
      if String.eqb ws "" then raise (AssertionError "")
      else
        let encoded_workspace := quote env ws in
        let rawls_url :=
          "https://rawls.dsde-" ++ TERRA_DEPLOYMENT_ENV env
          ++ ".broadinstitute.org/api/workspaces/"
          ++ fmt_opt workspace_namespace ++ "/" ++ encoded_workspace
          ++ "/enableRequesterPaysForLinkedServiceAccounts" in
        emit (LogInfo "Enabling requester pays for your workspace. This will only take a few seconds...") ;;;
        access_token <~ call GetAccessToken (get_access_token env) ;;
        let authorization := "Bearer " ++ access_token in
        resp <~ call (HttpPut rawls_url authorization)
                     (fun t => http_put env t rawls_url authorization) ;;
        if negb (Z.eqb (status_code resp) 204) then
          emit (LogWarning
                  ("Failed to init requester pays for workspace "
                   ++ fmt_opt workspace_namespace ++ "/" ++ ws
                   ++ ": Expected '204', got '" ++ PyStr.of_Z (status_code resp)
                   ++ "' for '" ++ rawls_url
                   ++ "'. You will not be able to access DRS URIs that interact with requester pays buckets."))
        else ret tt
  end.

(** [functools.lru_cache()] keeps at most 128 results. *)
Definition lru_maxsize : nat := 128.

Definition key_eqb (a b : option string * option string) : bool :=
  let oeqb (x y : option string) :=
    match x, y with
    | Some s, Some s' => String.eqb s s'
    | None, None => true
    | _, _ => false
    end in
  oeqb (fst a) (fst b) && oeqb (snd a) (snd b).

Definition cached (k : option string * option string) (w : World) : bool :=
  existsb (key_eqb k) (rp_cache w).

(** [enable_requester_pays] (lines 34-54) as the module's callers use it,
    with both arguments given by position.  A hit returns the stored
    [None] and makes the key the most recent one; a miss runs the body
    and stores the key only if the body returns, dropping the least
    recently used key when the cache is full. *)
Definition enable_requester_pays
    (workspace_name workspace_namespace : option string) : M unit :=
  fun w =>
    let k := (workspace_name, workspace_namespace) in
    if cached k w then
      (Ok tt,
       mkWorld (trace w)
               (k :: filter (fun k' => negb (key_eqb k k')) (rp_cache w))
               (queue w))
    else
      match enable_requester_pays_body workspace_name workspace_namespace w with
      | (Ok _, w') =>
          (Ok tt,
           mkWorld (trace w') (firstn lru_maxsize (k :: rp_cache w')) (queue w'))
      | (Raise e, w') => (Raise e, w')
      end.

(** [get_drs] (lines 56-85). *)
Definition get_drs (drs_url : string) : M Response :=
  access_token <~ call GetAccessToken (get_access_token env) ;;
  let authorization := "Bearer " ++ access_token in
  emit (LogDebug ("Resolving DRS uri '" ++ drs_url ++ "' through '"
                  ++ MARTHA_URL env ++ "'.")) ;;;
  let json_body_ := JObj [("url", JStr drs_url)] in
  resp <~ call (HttpPost (MARTHA_URL env) authorization json_body_)
               (fun t => http_post env t (MARTHA_URL env) authorization json_body_) ;;
  if negb (Z.eqb 200 (status_code resp)) then
    emit (LogWarning (content resp)) ;;;
    response_json <~ lift (json_body resp) ;;
    has_response <~ lift (Py.contains "response" response_json) ;;
    error_details <~
      (if has_response then
         response <~ lift (Py.getitem response_json "response") ;;
         has_text <~ lift (Py.contains "text" response) ;;
         if has_text then
           text <~ lift (Py.getitem response "text") ;;
           ret ("Error: " ++ fmt text)
         else ret ""
       else ret "") ;;
    raise (DRSResolutionError
             ("Unexpected response while resolving DRS URI. Expected status 200, got "
              ++ PyStr.of_Z (status_code resp) ++ ". " ++ error_details))
  else ret resp.

(** [get_drs_info] (lines 141-148).  The assertion message is a plain
    string, not an f-string. *)
Definition get_drs_info (drs_url : string) : M DRSInfo :=
  if PyStr.startswith drs_url "drs://" then
    resp <~ get_drs drs_url ;;
    drs_data <~ lift (json_body resp) ;;
    has_dos <~ lift (Py.contains "dos" drs_data) ;;
    if has_dos then lift (_drs_info_from_martha_v2 drs_url drs_data)
    else lift (_drs_info_from_martha_v3 drs_url drs_data)
  else
    raise (AssertionError "Expected DRS URI of the form 'drs://...', got '{drs_url}'").

(** [get_drs_blob] (lines 150-158); the union of the two accepted argument
    types is a sum, so the final [TypeError] branch has no inhabitant. *)
Definition get_drs_blob (drs_url_or_info : string + DRSInfo)
    (workspace_namespace : option string) : M Blob :=
  info <~ match drs_url_or_info with
          | inl drs_url => get_drs_info drs_url
          | inr info => ret info
          end ;;
  ret (GSBlob (bucket_name info) (key info) (credentials info) workspace_namespace).

(** [_do_copy_drs] (lines 197-212). *)
Definition _do_copy_drs (drs_uri dst : string) (threshold : Z)
    (indicator_type : Indicator)
    (workspace_name workspace_namespace : option string) : M unit :=
  src_info <~ get_drs_info drs_uri ;;
  src_blob <~ get_drs_blob (inr src_info) workspace_namespace ;;
  dst_blob <~
    (if PyStr.startswith dst "gs://" then
       bk <~ lift (_resolve_bucket_target dst src_info) ;;
       ret (GSBlobBare (JStr (fst bk)) (snd bk))
     else
       info <~ get_drs_info drs_uri ;;
       path <~ lift (_resolve_local_target dst info) ;;
       ret (BlobForUrl path)) ;;
  call (DoCopy src_blob dst_blob threshold indicator_type)
       (fun t => copy_client_do_copy env t src_blob dst_blob threshold indicator_type).

(** The part of [DRSCopyClient] (lines 214-225) the module sets and reads;
    the transfer threshold and the queue come from the base class. *)
Record DRSCopyClient : Type := mkDRSCopyClient {
  cc_multipart_threshold : Z;
  cc_indicator_type : Indicator;
  workspace : option string;
  workspace_namespace_ : option string
}.

(** [DRSCopyClient.copy] (lines 218-225): one [put] on the queue, nothing
    else. *)
Definition DRSCopyClient_copy (self : DRSCopyClient) (drs_uri dst : json)
  : M unit :=
  fun w =>
    (Ok tt,
     mkWorld (trace w) (rp_cache w)
             (queue w ++ [mkJob drs_uri dst (cc_multipart_threshold self)
                            (cc_indicator_type self) (workspace self)
                            (workspace_namespace_ self)])%list).

(** The keywords [manifest_schema] uses, with the meaning JSON Schema
    gives them: [type] constrains every instance, [items] only arrays,
    [properties] and [required] only objects, and [properties] only the
    keys that are present. *)
Inductive jtype : Type := TArray | TObject | TString.

Inductive schema : Type :=
| Schema (type : option jtype) (items : option schema)
         (properties : list (string * schema)) (required : list string).

Definition has_type (t : jtype) (v : json) : bool :=
  match t, v with
  | TArray, JArr _ => true
  | TObject, JObj _ => true
  | TString, JStr _ => true
  | _, _ => false
  end.

Definition has_key (d : list (string * json)) (k : string) : bool :=
  match Py.lookup k d with
  | Some _ => true
  | None => false
  end.

Fixpoint valid (s : schema) (v : json) {struct s} : bool :=
  match s with
  | Schema type items properties required =>
      match type with
      | Some t => has_type t v
      | None => true
      end
      && match items, v with
         | Some item_schema, JArr l => forallb (valid item_schema) l
         | _, _ => true
         end
      && match v with
         | JObj d =>
             forallb (fun p => match p with
                               | (k, sk) => match Py.lookup k d with
                                            | Some x => valid sk x
                                            | None => true
                                            end
                               end) properties
             && forallb (has_key d) required
         | _ => true
         end
  end.

(** [manifest_schema] (lines 256-266). *)
Definition manifest_schema : schema :=
  Schema (Some TArray)
         (Some (Schema (Some TObject) None
                       [("drs_uri", Schema (Some TString) None [] []);
                        ("dst", Schema (Some TString) None [] [])]
                       ["drs_uri"; "dst"]))
         [] [].

(** [jsonschema.validate(instance, schema)] *)
Definition validate (instance : json) (s : schema) : M unit :=
  if valid s instance then ret tt else raise ValidationError.

(** The loop of lines 278-279. *)
Fixpoint copy_items (cc : DRSCopyClient) (items : list json) : M unit :=
  match items with
  | [] => ret tt
  | item :: rest =>
      drs_uri <~ lift (Py.getitem item "drs_uri") ;;
      dst <~ lift (Py.getitem item "dst") ;;
      DRSCopyClient_copy cc drs_uri dst ;;;
      copy_items cc rest
  end.

(** [copy_batch] (lines 268-279), up to the end of the loop: what the pool
    does with the queued jobs when the [with] block is left belongs to the
    copy client. *)
Definition copy_batch (manifest : json) (indicator_type : Indicator)
    (workspace_name workspace_namespace : option string) : M unit :=
  validate manifest manifest_schema ;;;
  enable_requester_pays workspace_name workspace_namespace ;;;
  let cc := mkDRSCopyClient (multipart_threshold env) indicator_type
                            workspace_name workspace_namespace in
  items <~ lift (Py.iter manifest) ;;
  copy_items cc items.

End Drs.

(** ** The callers *)

Section Callers.

Variable env : Env.

(** The constant [WORKSPACE_BUCKET] of the package root. *)
Variable WORKSPACE_BUCKET : option string.

Local Open Scope world_scope.

(** [info] (lines 87-92): the keys of the returned dict in the order they
    are set. *)
Definition info (drs_url : string) : M json :=
  i <~ get_drs_info env drs_url ;;
  ret (JObj [("name", name i); ("size", size i); ("updated", updated i);
             ("url", JStr ("gs://" ++ fmt env (bucket_name i) ++ "/"
                           ++ fmt env (key i)))]).

(** [copy_client.blob_for_url], which may refuse a URL. *)
Variable copy_client_blob_for_url : string -> result Blob.

(** [blob_for_url] (lines 160-164). *)
Definition blob_for_url (url : string) (workspace_namespace : option string)
  : M Blob :=
  if PyStr.startswith url "drs://" then
    get_drs_blob env (inl url) workspace_namespace
  else lift (copy_client_blob_for_url url).

(** [copy] (lines 227-239), up to the [put] on the queue; the flag
    [raise_on_error] only tells the pool what to do when the block is
    left. *)
Definition copy (drs_uri dst : string) (indicator_type : Indicator)
    (workspace_name workspace_namespace : option string) : M unit :=
  enable_requester_pays env workspace_name workspace_namespace ;;;
  let cc := mkDRSCopyClient (multipart_threshold env) indicator_type
                            workspace_name workspace_namespace in
  DRSCopyClient_copy cc (JStr drs_uri)
                     (JStr (if String.eqb dst "" then "." else dst)).

(** The destination URL of lines 250-253. *)
Definition bucket_dst_url (dst_key : string) (dst_bucket_name : option string)
  : string :=
  let dst_bucket_name :=
    match dst_bucket_name with
    | Some b => if String.eqb b "" then WORKSPACE_BUCKET else Some b
    | None => WORKSPACE_BUCKET
    end in
  let dst_url := "gs://" ++ fmt_opt dst_bucket_name in
  if String.eqb dst_key "" then dst_url else dst_url ++ "/" ++ dst_key.

(** [copy_to_bucket] (lines 241-254). *)
Definition copy_to_bucket (drs_uri dst_key : string)
    (dst_bucket_name : option string) (indicator_type : Indicator)
    (workspace_name workspace_namespace : option string) : M unit :=
  copy drs_uri (bucket_dst_url dst_key dst_bucket_name) indicator_type
       workspace_name workspace_namespace.

End Callers.

(** * The vocabulary of the specification *)

(** The value [d.get(k)] gives on a dict. *)
Definition field (k : string) (d : list (string * json)) : json :=
  match Py.lookup k d with
  | Some x => x
  | None => JNull
  end.

(** ** Candidate URLs of a legacy response *)

(** A candidate record is an object whose ['url'], when it has one, is a
    string. *)
Definition is_candidate (c : json) : bool :=
  match c with
  | JObj r => match Py.lookup "url" r with
              | None | Some (JStr _) => true
              | Some _ => false
              end
  | _ => false
  end.

Definition candidate_url (c : json) : option string :=
  match c with
  | JObj r => match Py.lookup "url" r with
              | Some (JStr s) => Some s
              | _ => None
              end
  | _ => None
  end.

Definition storage_candidate (c : json) : bool :=
  match candidate_url c with
  | Some s => PyStr.startswith s _GS_SCHEMA
  | None => false
  end.

(** The URL of the first candidate whose URL starts with the storage
    scheme. *)
Definition first_storage_url (l : list json) : option string :=
  match find storage_candidate l with
  | Some c => candidate_url c
  | None => None
  end.

(** ** The current shape, as the spec words it *)

(** Bucket and key of the canonical record are the two parts of ['gsUri']. *)
Definition v3_splits_gs_uri (drs_url : string) (d : list (string * json)) : Prop :=
  forall g b k,
    Py.lookup "gsUri" d = Some (JStr g) ->
    _parse_gs_url g = Ok (b, k) ->
    exists i, _drs_info_from_martha_v3 drs_url (JObj d) = Ok i
              /\ bucket_name i = JStr b /\ key i = JStr k.

(** A current-shape response that carries the URI and no ['bucket'] or
    ['name']. *)
Definition gs_uri_only : list (string * json) :=
  [("gsUri", JStr "gs://a/b"); ("fileName", JStr "b")].

(** A legacy response with the two candidates of the spec's example. *)
Definition legacy_example : list (string * json) :=
  [("dos",
    JObj [("data_object",
           JObj [("urls", JArr [JObj [("url", JStr "s3://x")];
                                JObj [("url", JStr "gs://bucket/key")]]);
                 ("size", JNum 7)])])].

(** A current-shape response with every flat field. *)
Definition current_example : list (string * json) :=
  [("gsUri", JStr "gs://bucket/dir/obj.bam");
   ("bucket", JStr "bucket");
   ("name", JStr "dir/obj.bam");
   ("fileName", JStr "obj.bam");
   ("size", JNum 1024);
   ("timeUpdated", JStr "2020-01-01T00:00:00Z");
   ("googleServiceAccount", JObj [("data", JObj [("client_email", JStr "sa@example.org")])])].

(** ** Destination keys, as the spec words them *)


Definition strip_separator (pfx : string) : string :=
  if PyStr.endswith_slash pfx then PyStr.drop_last pfx else pfx.

(** [base] as the final component under [dir]. *)
Definition append_component (dir base : string) : string :=
  if String.eqb dir "" then base else dir ++ "/" ++ base.



(** ** Environments to run the module in *)

(** A token provider that hands out [tok], a resolver that answers every
    request with [post_resp] and a workspace service that answers every
    request with [put_resp]. *)
Definition const_env (post_resp put_resp : Response) : Env :=
  mkEnv "https://martha.example/martha_v3" "prod"
        (fun _ => Ok "tok")
        (fun _ _ _ _ => Ok post_resp)
        (fun _ _ _ => Ok put_resp)
        (fun s => s)
        (fun _ => "")
        (fun _ => false)
        (fun s => s)
        (fun _ _ _ _ _ => Ok tt)
        1024%Z.

Definition json_response (status : Z) (body : json) : Response :=
  mkResponse status "" (Ok body).

Definition demo_env : Env :=
  const_env (json_response 200 (JObj current_example)) (json_response 204 JNull).

Definition fresh : World := mkWorld [] [] [].

Definition named (n : string) : DRSInfo :=
  mkDRSInfo JNull JNull (JStr "src") (JStr "path/to/object") (JStr n) JNull JNull.

(** ** Resolver errors, as the spec words them *)

(** Every answer with a status other than 200 ends in a
    [DRSResolutionError]. *)
Definition non_200_is_resolution_error (env : Env) (drs_url : string) (w : World)
  : Prop :=
  forall tok resp,
    (forall t, get_access_token env t = Ok tok) ->
    (forall t, http_post env t (MARTHA_URL env) ("Bearer " ++ tok)
                         (JObj [("url", JStr drs_url)]) = Ok resp) ->
    status_code resp <> 200%Z ->
    exists msg, fst (get_drs env drs_url w) = Raise (DRSResolutionError msg).

(** The error body has no ['response'] member, or one that is an object. *)
Definition diagnosable (body : list (string * json)) : bool :=
  match Py.lookup "response" body with
  | None | Some (JObj _) => true
  | Some _ => false
  end.

(** The text extracted from [response.text], empty when there is none. *)
Definition error_text (env : Env) (body : list (string * json)) : string :=
  match Py.lookup "response" body with
  | Some (JObj r) => match Py.lookup "text" r with
                     | Some t => "Error: " ++ fmt env t
                     | None => ""
                     end
  | _ => ""
  end.

(** ** Batch manifests, as the spec words them *)

Definition string_field (k : string) (d : list (string * json)) : bool :=
  match Py.lookup k d with
  | Some (JStr _) => true
  | _ => false
  end.

(** A record with a string ['drs_uri'] and a string ['dst']. *)
Definition well_formed_entry (item : json) : bool :=
  match item with
  | JObj d => string_field "drs_uri" d && string_field "dst" d
  | _ => false
  end.

(** An ordered sequence of such records. *)
Definition well_formed_manifest (manifest : json) : bool :=
  match manifest with
  | JArr items => forallb well_formed_entry items
  | _ => false
  end.

(** A resolver that answers 500 with the body [{"response": null}]. *)
Definition null_response_env : Env :=
  const_env (json_response 500 (JObj [("response", JNull)])) (json_response 204 JNull).

(** A resolver that answers 404 with a diagnostic text. *)
Definition not_found_env : Env :=
  const_env (json_response 404
               (JObj [("response", JObj [("text", JStr "object not found")])]))
            (json_response 204 JNull).

(** A manifest whose second entry has no ['dst']. *)
Definition manifest_missing_dst : json :=
  JArr [JObj [("drs_uri", JStr "drs://host/a"); ("dst", JStr "gs://dst/a")];
        JObj [("drs_uri", JStr "drs://host/b")]].

(** ** Counting requests *)

Definition is_put (e : event) : bool :=
  match e with
  | HttpPut _ _ => true
  | _ => false
  end.

(** Requests sent to the workspace service. *)
Definition puts (t : list event) : nat := List.length (filter is_put t).

(** [e] asks the resolver for [drs_uri]. *)
Definition resolves (env : Env) (drs_uri : string) (e : event) : bool :=
  match e with
  | HttpPost url _ (JObj [(k, JStr u)]) =>
      String.eqb url (MARTHA_URL env) && String.eqb k "url" && String.eqb u drs_uri
  | _ => false
  end.

(** Requests sent to the resolver for [drs_uri]. *)
Definition resolutions (env : Env) (drs_uri : string) (t : list event) : nat :=
  List.length (filter (resolves env drs_uri) t).

(** The token provider hands out a token whenever it is asked. *)
Definition token_answers (env : Env) : Prop :=
  forall t, exists tok, get_access_token env t = Ok tok.


(** ** Memoization for the process lifetime, as the spec words it *)

(** Enable requester pays for each pair in turn. *)
Definition enable_each (env : Env) (pairs : list (option string * option string))
    (w : World) : World :=
  fold_left (fun w p => snd (enable_requester_pays env (fst p) (snd p) w)) pairs w.


(** 128 workspaces [w1] ... [w128] of one project. *)
Definition other_workspaces : list (option string * option string) :=
  map (fun n => (Some ("w" ++ PyStr.of_Z (Z.of_nat n)), Some "project")) (seq 1 128).

(** Running [m] sends [n] more requests for [drs_uri] to the resolver,
    whatever the world it starts in and however it ends. *)
Definition adds (env : Env) (drs_uri : string) (n : nat) {A : Type} (m : M A)
  : Prop :=
  forall w, resolutions env drs_uri (trace (snd (m w)))
            = n + resolutions env drs_uri (trace w).

(** ** Further vocabulary *)

(** [m] leaves the requester-pays cache and the copy queue as they are. *)
Definition frames {A : Type} (m : M A) : Prop :=
  forall w, rp_cache (snd (m w)) = rp_cache w /\ queue (snd (m w)) = queue w.

(** The job [copy_batch] puts on the queue for a manifest entry. *)
Definition job_of_entry (env : Env) (indicator_type : Indicator)
    (workspace_name workspace_namespace : option string) (item : json) : Job :=
  match item with
  | JObj d => mkJob (field "drs_uri" d) (field "dst" d) (multipart_threshold env)
                    indicator_type workspace_name workspace_namespace
  | _ => mkJob JNull JNull (multipart_threshold env) indicator_type
               workspace_name workspace_namespace
  end.

(** The pair names a workspace. *)
Definition has_name (p : option string * option string) : bool :=
  match fst p with
  | Some ws => negb (String.eqb ws "")
  | None => false
  end.

(** A token provider that fails. *)
Definition no_token_env : Env :=
  mkEnv "https://martha.example/martha_v3" "prod"
        (fun _ => Raise (ExternalError "no credentials"))
        (fun _ _ _ _ => Ok (json_response 200 (JObj current_example)))
        (fun _ _ _ => Ok (json_response 204 JNull))
        (fun s => s) (fun _ => "") (fun _ => false) (fun s => s)
        (fun _ _ _ _ _ => Ok tt) 1024%Z.

(** A workspace service that refuses with 403. *)
Definition refused_env : Env :=
  const_env (json_response 200 (JObj current_example)) (json_response 403 JNull).

(** A resolver that answers with the legacy example. *)
Definition legacy_env : Env :=
  const_env (json_response 200 (JObj legacy_example)) (json_response 204 JNull).

(** A manifest of two well-formed entries. *)
Definition manifest_of_two : list json :=
  [JObj [("drs_uri", JStr "drs://host/a"); ("dst", JStr "gs://dst/a")];
   JObj [("drs_uri", JStr "drs://host/b"); ("dst", JStr "/tmp/"); ("note", JNum 1)]].

(** A manifest entry with a string ['drs_uri'] and a string ['dst'], and
    whatever else. *)
Definition entry_ok (item : json) : Prop :=
  exists d u t, item = JObj d /\ Py.lookup "drs_uri" d = Some (JStr u)
                /\ Py.lookup "dst" d = Some (JStr t).

(** ** Vocabulary that does not go through the module's helpers *)

(** A legacy response whose first storage-scheme candidate has no key. *)
Definition legacy_keyless : list (string * json) :=
  [("dos",
    JObj [("data_object",
           JObj [("urls", JArr [JObj [("url", JStr "s3://x")];
                                JObj [("url", JStr "gs://bucket")]])])])].

(** No character of [s] is a slash. *)
Definition no_slash (s : string) : Prop :=
  ~ In "/"%char (list_ascii_of_string s).

(** [base] is what the record is shown under: its name when it has one,
    and otherwise (name [None] or empty) what follows the last slash of its
    key, the whole key when there is no slash. *)
Definition shown_as (info : DRSInfo) (base : string) : Prop :=
  (name info = JStr base /\ base <> "")
  \/ ((name info = JNull \/ name info = JStr "")
      /\ no_slash base
      /\ (key info = JStr base \/ exists p, key info = JStr (p ++ "/" ++ base))).

(** A record without a name. *)
Definition unnamed : DRSInfo :=
  mkDRSInfo JNull JNull (JStr "src") (JStr "path/to/object") JNull JNull JNull.



(** A [copy_client.blob_for_url] that refuses bucket URLs without a key. *)
Definition refusing_blob_for_url (url : string) : result Blob :=
  if String.eqb url "gs://bucket" then Raise (ValueError "no key in gs://bucket")
  else Ok (BlobForUrl url).

(** * Properties *)

(** Unfold the plumbing of [M]. *)
Ltac run_world :=
  unfold call, bind, emit, ask, lift, ret, raise; cbn [fst snd trace rp_cache queue].

(** ** Strings *)

Section StringFacts.

Lemma split1_slash (b k : string) :
  PyStr.has_slash b = false ->
  PyStr.split1 (b ++ String PyStr.slash k) = [b; k].
Proof.
  induction b as [|c b IH]; simpl; intro H.
  - reflexivity.
  - apply orb_false_iff in H. destruct H as [Hc Hb].
    rewrite Hc, (IH Hb). reflexivity.
Qed.

Lemma split1_no_slash (s : string) :
  PyStr.has_slash s = false -> PyStr.split1 s = [s].
Proof.
  induction s as [|c s IH]; simpl; intro H.
  - reflexivity.
  - apply orb_false_iff in H. destruct H as [Hc Hs].
    rewrite Hc, (IH Hs). reflexivity.
Qed.

Lemma split1_shape (s : string) :
  (PyStr.has_slash s = false /\ PyStr.split1 s = [s]) \/
  (exists b k, PyStr.has_slash b = false /\ s = b ++ String PyStr.slash k
               /\ PyStr.split1 s = [b; k]).
Proof.
  induction s as [|c s IH]; simpl.
  - left. split; reflexivity.
  - destruct (Ascii.eqb c PyStr.slash) eqn:Hc; simpl.
    + right. exists "", s. apply Ascii.eqb_eq in Hc. subst c.
      repeat split; reflexivity.
    + destruct IH as [[Hs E] | (b & k & Hb & Es & E)].
      * left. rewrite Hs, E. split; reflexivity.
      * right. exists (String c b), k. rewrite E. simpl. rewrite Hc, Hb.
        subst s. repeat split; reflexivity.
Qed.

Lemma startswith_app (p s : string) : PyStr.startswith (p ++ s) p = true.
Proof.
  unfold PyStr.startswith.
  induction p as [|a p IH]; simpl.
  - destruct s; reflexivity.
  - destruct (ascii_dec a a) as [_ | N]; [exact IH | congruence].
Qed.

Lemma startswith_inv (p s : string) :
  PyStr.startswith s p = true -> s = p ++ PyStr.drop (String.length p) s.
Proof.
  unfold PyStr.startswith. revert s.
  induction p as [|a p IH]; intros s H.
  - reflexivity.
  - destruct s as [|b s]; [discriminate H |]. simpl in H.
    destruct (ascii_dec a b) as [E | N]; [| discriminate H].
    subst b. simpl. f_equal. apply IH. exact H.
Qed.

Lemma drop_app (p s : string) : PyStr.drop (String.length p) (p ++ s) = s.
Proof.
  induction p as [|a p IH]; simpl; [reflexivity | exact IH].
Qed.

End StringFacts.

(** ** The two URL parsers *)

Section Parsers.

Lemma parse_gs_url_slash (b k : string) :
  PyStr.has_slash b = false ->
  _parse_gs_url ("gs://" ++ b ++ "/" ++ k) = Ok (b, k).
Proof.
  intro H. unfold _parse_gs_url, _GS_SCHEMA.
  rewrite startswith_app, drop_app.
  change ("/" ++ k) with (String PyStr.slash k).
  rewrite (split1_slash b k H). reflexivity.
Qed.

Lemma parse_gs_url_no_slash (rest : string) :
  PyStr.has_slash rest = false ->
  _parse_gs_url ("gs://" ++ rest)
  = Raise (ValueError "not enough values to unpack (expected 2, got 1)").
Proof.
  intro H. unfold _parse_gs_url, _GS_SCHEMA.
  rewrite startswith_app, drop_app, (split1_no_slash rest H). reflexivity.
Qed.

Lemma parse_gs_url_no_prefix (u : string) :
  PyStr.startswith u "gs://" = false ->
  exists msg, _parse_gs_url u = Raise (RuntimeError msg).
Proof.
  intro H. unfold _parse_gs_url, _GS_SCHEMA. rewrite H. eexists. reflexivity.
Qed.

Lemma bucket_name_and_key_slash (b k : string) :
  PyStr.has_slash b = false ->
  _bucket_name_and_key ("gs://" ++ b ++ "/" ++ k) = Ok (b, k).
Proof.
  intro H. unfold _bucket_name_and_key.
  rewrite startswith_app.
  change 5 with (String.length "gs://"). rewrite drop_app.
  change ("/" ++ k) with (String PyStr.slash k).
  rewrite (split1_slash b k H). cbv zeta iota beta.
  destruct (String.eqb k "") eqn:E; [| reflexivity].
  apply String.eqb_eq in E. subst k. reflexivity.
Qed.

Lemma bucket_name_and_key_no_slash (rest : string) :
  PyStr.has_slash rest = false ->
  _bucket_name_and_key ("gs://" ++ rest) = Ok (rest, "").
Proof.
  intro H. unfold _bucket_name_and_key.
  rewrite startswith_app.
  change 5 with (String.length "gs://").
  rewrite drop_app, (split1_no_slash rest H). reflexivity.
Qed.

Lemma bucket_name_and_key_no_prefix (u : string) :
  PyStr.startswith u "gs://" = false ->
  _bucket_name_and_key u = Raise (AssertionError "").
Proof.
  intro H. unfold _bucket_name_and_key. rewrite H. reflexivity.
Qed.

(** On the storage scheme the destination parser always returns. *)
Lemma bucket_name_and_key_total (u : string) :
  PyStr.startswith u "gs://" = true ->
  exists b k, PyStr.has_slash b = false /\ _bucket_name_and_key u = Ok (b, k)
              /\ (u = "gs://" ++ b ++ "/" ++ k \/ (k = "" /\ u = "gs://" ++ b)).
Proof.
  intro H. apply startswith_inv in H.
  revert H. generalize (PyStr.drop (String.length "gs://") u).
  intros rest E. subst u.
  destruct (split1_shape rest) as [[Hs _] | (b & k & Hb & Er & _)].
  - exists rest, "". rewrite (bucket_name_and_key_no_slash rest Hs). auto.
  - exists b, k. subst rest.
    change (String PyStr.slash k) with ("/" ++ k).
    rewrite (bucket_name_and_key_slash b k Hb). auto.
Qed.

End Parsers.

(** C3.  A URL on the storage scheme with no slash after the bucket is to
    parse into the bucket and the empty key.  At [gs://bucket] the parser of
    the source side, [_parse_gs_url], raises [ValueError] out of its tuple
    unpacking, where the parser of the destination side,
    [_bucket_name_and_key], returns the bucket with the empty key. *)
Theorem parse_gs_url_bucket_only_diverges :
  _parse_gs_url "gs://bucket"
  = Raise (ValueError "not enough values to unpack (expected 2, got 1)")
  /\ _bucket_name_and_key "gs://bucket" = Ok ("bucket", "").
Proof.
  split; reflexivity.
Qed.


(** ** Normalizing a resolver response *)

Section Normalizer.

Lemma first_gs_url_candidates (l : list json) :
  forallb is_candidate l = true -> first_gs_url l = Ok (first_storage_url l).
Proof.
  unfold first_storage_url.
  induction l as [|c l IH]; intro H; [reflexivity |].
  simpl in H. apply andb_true_iff in H. destruct H as [Hc Hl].
  specialize (IH Hl).
  destruct c as [| | | |?|r]; try discriminate Hc.
  cbn [first_gs_url find Py.contains Py.getitem rbind].
  unfold storage_candidate at 1. cbn [candidate_url is_candidate] in *.
  destruct (Py.lookup "url" r) as [[| | |s| |]|] eqn:E; try discriminate Hc; cbn [rbind].
  - destruct (PyStr.startswith s _GS_SCHEMA); [| exact IH].
    cbn [candidate_url]. rewrite E. reflexivity.
  - exact IH.
Qed.

(** The legacy normalizer on a response with a data-object record that has
    a URL list, in terms of what the loop finds. *)
Lemma v2_with_urls (drs_url : string) (d dos data_object : list (string * json))
    (urls : json) (l : list json) (found : option string) :
  Py.lookup "dos" d = Some (JObj dos) ->
  Py.lookup "data_object" dos = Some (JObj data_object) ->
  Py.lookup "urls" data_object = Some urls ->
  Py.iter urls = Ok l ->
  first_gs_url l = Ok found ->
  _drs_info_from_martha_v2 drs_url (JObj d)
  = match found with
    | None => Raise (no_gs_url drs_url)
    | Some data_url =>
        rbind (_parse_gs_url data_url) (fun bk =>
        rbind (_get_drs_gs_creds (JObj d)) (fun creds =>
        Ok (mkDRSInfo creds JNull (JStr (fst bk)) (JStr (snd bk))
                      (field "name" data_object) (field "size" data_object)
                      (field "updated" data_object))))
    end.
Proof.
  intros Hdos Hdo Hurls Hiter Hfound.
  unfold _drs_info_from_martha_v2. simpl.
  rewrite Hdos. simpl. rewrite Hdo. simpl. rewrite Hurls. simpl.
  rewrite Hiter. simpl. rewrite Hfound. simpl.
  destruct found as [data_url|]; [| reflexivity].
  destruct (_parse_gs_url data_url) as [[b k]|e]; reflexivity.
Qed.

End Normalizer.

(** C10.  A legacy response whose first storage-scheme candidate has no
    slash after the scheme prefix (as [gs://bucket]) does not normalize and
    does not fail with [DRSResolutionError] either: the tuple unpacking in
    [_parse_gs_url] raises [ValueError]. *)
Theorem v2_keyless_candidate_raises_ValueError
    (drs_url : string) (d dos data_object : list (string * json))
    (urls : json) (l : list json) (rest : string) :
  Py.lookup "dos" d = Some (JObj dos) ->
  Py.lookup "data_object" dos = Some (JObj data_object) ->
  Py.lookup "urls" data_object = Some urls ->
  Py.iter urls = Ok l ->
  first_gs_url l = Ok (Some (_GS_SCHEMA ++ rest)) ->
  PyStr.has_slash rest = false ->
  _drs_info_from_martha_v2 drs_url (JObj d)
  = Raise (ValueError "not enough values to unpack (expected 2, got 1)").
Proof.
  intros Hdos Hdo Hurls Hiter Hfound Hrest.
  rewrite (v2_with_urls drs_url d dos data_object urls l _ Hdos Hdo Hurls Hiter Hfound).
  unfold _GS_SCHEMA. rewrite (parse_gs_url_no_slash rest Hrest). reflexivity.
Qed.

Lemma v2_keyless_candidate_witness :
  _drs_info_from_martha_v2 "drs://host/object"
    (JObj [("dos", JObj [("data_object",
                          JObj [("urls", JArr [JObj [("url", JStr "gs://bucket")]])])])])
  = Raise (ValueError "not enough values to unpack (expected 2, got 1)").
Proof.
  eapply v2_keyless_candidate_raises_ValueError with (rest := "bucket");
    reflexivity.
Defined.

(** On a legacy response with a data-object record whose URL list holds
    candidate records, normalization
    fails with [DRSResolutionError] when the record has no URL list or the
    list has no candidate on the storage scheme; otherwise it takes the
    first such candidate, and bucket and key of the result are the text
    before and after the first slash that follows the scheme. *)
Theorem v2_selects_first_storage_candidate
    (drs_url : string) (d dos data_object : list (string * json)) :
  Py.lookup "dos" d = Some (JObj dos) ->
  Py.lookup "data_object" dos = Some (JObj data_object) ->
  (Py.lookup "urls" data_object = None ->
   _drs_info_from_martha_v2 drs_url (JObj d) = Raise (no_gs_url drs_url))
  /\ (forall l,
        Py.lookup "urls" data_object = Some (JArr l) ->
        forallb is_candidate l = true ->
        first_storage_url l = None ->
        _drs_info_from_martha_v2 drs_url (JObj d) = Raise (no_gs_url drs_url))
  /\ (forall l b k creds,
        Py.lookup "urls" data_object = Some (JArr l) ->
        forallb is_candidate l = true ->
        first_storage_url l = Some (_GS_SCHEMA ++ b ++ "/" ++ k) ->
        PyStr.has_slash b = false ->
        _get_drs_gs_creds (JObj d) = Ok creds ->
        _drs_info_from_martha_v2 drs_url (JObj d)
        = Ok (mkDRSInfo creds JNull (JStr b) (JStr k)
                        (field "name" data_object) (field "size" data_object)
                        (field "updated" data_object))).
Proof.
  intros Hdos Hdo. repeat split.
  - intro Hurls. unfold _drs_info_from_martha_v2. simpl.
    rewrite Hdos. simpl. rewrite Hdo. simpl. rewrite Hurls. reflexivity.
  - intros l Hurls Hcand Hnone.
    rewrite (v2_with_urls drs_url d dos data_object (JArr l) l None Hdos Hdo Hurls eq_refl).
    + reflexivity.
    + rewrite (first_gs_url_candidates l Hcand), Hnone. reflexivity.
  - intros l b k creds Hurls Hcand Hsome Hb Hcreds.
    rewrite (v2_with_urls drs_url d dos data_object (JArr l) l
               (Some (_GS_SCHEMA ++ b ++ "/" ++ k)) Hdos Hdo Hurls eq_refl).
    + unfold _GS_SCHEMA. rewrite (parse_gs_url_slash b k Hb), Hcreds. reflexivity.
    + rewrite (first_gs_url_candidates l Hcand), Hsome. reflexivity.
Qed.

Lemma v2_selects_first_storage_candidate_witness :
  _drs_info_from_martha_v2 "drs://host/object" (JObj legacy_example)
  = Ok (mkDRSInfo JNull JNull (JStr "bucket") (JStr "key") JNull (JNum 7) JNull).
Proof.
  eapply (proj2 (proj2 (v2_selects_first_storage_candidate
                          "drs://host/object" legacy_example _ _ eq_refl eq_refl)))
    with (b := "bucket") (k := "key"); reflexivity.
Defined.

(** C1, as stated: a current-shape response that carries only ['gsUri']
    normalizes to a record whose bucket and key are [None], not the two
    parts of the URI. *)
Lemma v3_does_not_split_gs_uri :
  ~ v3_splits_gs_uri "drs://host/object" gs_uri_only.
Proof.
  intro H.
  destruct (H "gs://a/b" "a" "b" eq_refl eq_refl) as (i & Hi & Hb & _).
  vm_compute in Hi. injection Hi as <-. discriminate Hb.
Qed.

(** C1, amended.  A current-shape response without ['gsUri'] fails with
    [DRSResolutionError]; with it, every field of the canonical record is
    read off a flat field of the response: the bucket from ['bucket'], the
    key from ['name'], the name from ['fileName'], the size from ['size'],
    the update time from ['timeUpdated'], the access URL from ['accessUrl'],
    each [None] when the field is missing.  The URI itself is not parsed. *)
Theorem v3_reads_flat_fields (drs_url : string) (d : list (string * json)) :
  (Py.lookup "gsUri" d = None ->
   _drs_info_from_martha_v3 drs_url (JObj d) = Raise (no_gs_url drs_url))
  /\ (forall g creds,
        Py.lookup "gsUri" d = Some g ->
        _get_drs_gs_creds (JObj d) = Ok creds ->
        _drs_info_from_martha_v3 drs_url (JObj d)
        = Ok (mkDRSInfo creds (field "accessUrl" d) (field "bucket" d)
                        (field "name" d) (field "fileName" d)
                        (field "size" d) (field "timeUpdated" d))).
Proof.
  split.
  - intro H. unfold _drs_info_from_martha_v3. simpl. rewrite H. reflexivity.
  - intros g creds H Hcreds. unfold _drs_info_from_martha_v3.
    cbn [Py.contains rbind]. rewrite H. cbn [negb rbind].
    rewrite Hcreds. reflexivity.
Qed.

Lemma v3_reads_flat_fields_witness :
  _drs_info_from_martha_v3 "drs://host/object" (JObj current_example)
  = Ok (mkDRSInfo (JObj [("client_email", JStr "sa@example.org")]) JNull
                  (JStr "bucket") (JStr "dir/obj.bam") (JStr "obj.bam")
                  (JNum 1024) (JStr "2020-01-01T00:00:00Z"))
  /\ _drs_info_from_martha_v3 "drs://host/object" (JObj [("bucket", JStr "b")])
     = Raise (no_gs_url "drs://host/object").
Proof.
  split.
  - eapply (proj2 (v3_reads_flat_fields "drs://host/object" current_example));
      reflexivity.
  - apply (proj1 (v3_reads_flat_fields "drs://host/object" [("bucket", JStr "b")])).
    reflexivity.
Defined.

(** ** The resolver client *)

(** C6.  An identifier that does not start with [drs://] fails the
    assertion of [get_drs_info] and leaves the world as it was: no token is
    asked for and no request is sent. *)
Theorem get_drs_info_rejects_other_schemes (env : Env) (drs_url : string) (w : World) :
  PyStr.startswith drs_url "drs://" = false ->
  get_drs_info env drs_url w
  = (Raise (AssertionError "Expected DRS URI of the form 'drs://...', got '{drs_url}'"),
     w).
Proof.
  intro H. unfold get_drs_info. rewrite H. reflexivity.
Qed.

Lemma get_drs_info_rejects_other_schemes_witness :
  get_drs_info demo_env "gs://bucket/key" fresh
  = (Raise (AssertionError "Expected DRS URI of the form 'drs://...', got '{drs_url}'"),
     fresh).
Proof.
  apply (get_drs_info_rejects_other_schemes demo_env "gs://bucket/key" fresh).
  reflexivity.
Defined.

(** Not every answer with another status ends in a [DRSResolutionError]:
    a 500 answer whose body is [{"response": null}] makes
    the membership test on [None] raise [TypeError]; no
    [DRSResolutionError] comes out. *)
Lemma non_200_null_response_raises_TypeError :
  ~ non_200_is_resolution_error null_response_env "drs://host/object" fresh.
Proof.
  intro H.
  destruct (H "tok" (json_response 500 (JObj [("response", JNull)])))
    as [msg Hmsg].
  - intro t. reflexivity.
  - intro t. reflexivity.
  - discriminate.
  - vm_compute in Hmsg. discriminate Hmsg.
Qed.

(** When the resolver answers with a status other than 200
    and a body that decodes to an object whose ['response'] member is
    missing or is an object, [get_drs] fails with [DRSResolutionError]; the
    message names the status and ends with the text of [response.text]
    after ["Error: "], or with nothing when there is no such text. *)
Theorem get_drs_non_200_raises_resolution_error
    (env : Env) (drs_url : string) (w : World)
    (tok : string) (resp : Response) (body : list (string * json)) :
  (forall t, get_access_token env t = Ok tok) ->
  (forall t, http_post env t (MARTHA_URL env) ("Bearer " ++ tok)
                       (JObj [("url", JStr drs_url)]) = Ok resp) ->
  status_code resp <> 200%Z ->
  json_body resp = Ok (JObj body) ->
  diagnosable body = true ->
  fst (get_drs env drs_url w)
  = Raise (DRSResolutionError
             ("Unexpected response while resolving DRS URI. Expected status 200, got "
              ++ PyStr.of_Z (status_code resp) ++ ". " ++ error_text env body)).
Proof.
  intros Htok Hpost Hstatus Hjson Hdiag.
  unfold get_drs. run_world.
  rewrite Htok, Hpost.
  destruct (Z.eqb_spec 200 (status_code resp)) as [E | _]; [congruence |].
  cbn [negb]. rewrite Hjson.
  unfold diagnosable in Hdiag. unfold error_text.
  cbn [Py.contains Py.getitem].
  destruct (Py.lookup "response" body) as [[| | | | |r]|]; try discriminate Hdiag.
  - cbn [Py.contains Py.getitem].
    destruct (Py.lookup "text" r) as [t|]; reflexivity.
  - reflexivity.
Qed.

Lemma get_drs_non_200_witness :
  fst (get_drs not_found_env "drs://host/object" fresh)
  = Raise (DRSResolutionError
             "Unexpected response while resolving DRS URI. Expected status 200, got 404. Error: object not found").
Proof.
  apply (get_drs_non_200_raises_resolution_error not_found_env "drs://host/object"
           fresh "tok"
           (json_response 404
              (JObj [("response", JObj [("text", JStr "object not found")])]))
           [("response", JObj [("text", JStr "object not found")])]);
    try (intro; reflexivity); try reflexivity.
  discriminate.
Defined.

(** ** Batch copies *)

Section Manifest.

Lemma valid_entry (item : json) :
  valid (Schema (Some TObject) None
                [("drs_uri", Schema (Some TString) None [] []);
                 ("dst", Schema (Some TString) None [] [])]
                ["drs_uri"; "dst"]) item
  = well_formed_entry item.
Proof.
  destruct item as [| | | | |d]; try reflexivity.
  cbn [valid has_type forallb andb well_formed_entry].
  unfold has_key, string_field.
  destruct (Py.lookup "drs_uri" d) as [[| | | | |]|];
    destruct (Py.lookup "dst" d) as [[| | | | |]|]; reflexivity.
Qed.

Lemma valid_array_of (s : schema) (l : list json) :
  valid (Schema (Some TArray) (Some s) [] []) (JArr l) = forallb (valid s) l.
Proof.
  cbn [valid has_type andb]. apply andb_true_r.
Qed.

(** The schema accepts exactly the well-formed manifests. *)
Lemma valid_manifest_schema (manifest : json) :
  valid manifest_schema manifest = well_formed_manifest manifest.
Proof.
  destruct manifest as [| | | |l|]; try reflexivity.
  unfold manifest_schema. rewrite valid_array_of.
  cbn [well_formed_manifest].
  induction l as [|item l IH]; [reflexivity |].
  cbn [forallb]. rewrite IH, valid_entry. reflexivity.
Qed.

End Manifest.

(** C7.  A manifest that is not a sequence of records with a string
    ['drs_uri'] and a string ['dst'] each makes [copy_batch] raise the
    validation error and leaves the world as it was: no job is put on the
    queue, requester pays is not enabled, nothing is sent or logged. *)
Theorem copy_batch_rejects_malformed_manifest
    (env : Env) (manifest : json) (indicator_type : Indicator)
    (workspace_name workspace_namespace : option string) (w : World) :
  well_formed_manifest manifest = false ->
  copy_batch env manifest indicator_type workspace_name workspace_namespace w
  = (Raise ValidationError, w).
Proof.
  intro H. unfold copy_batch, validate, bind.
  rewrite valid_manifest_schema, H. reflexivity.
Qed.

Lemma copy_batch_rejects_malformed_manifest_witness :
  copy_batch demo_env manifest_missing_dst log (Some "ws") (Some "project") fresh
  = (Raise ValidationError, fresh).
Proof.
  apply (copy_batch_rejects_malformed_manifest demo_env manifest_missing_dst log
           (Some "ws") (Some "project") fresh).
  reflexivity.
Defined.

(** ** Requester pays *)

Section Memo.

Lemma puts_app (t t' : list event) : puts (t ++ t') = puts t + puts t'.
Proof.
  unfold puts. rewrite filter_app, length_app. reflexivity.
Qed.

Lemma key_eqb_eq (a b : option string * option string) :
  key_eqb a b = true <-> a = b.
Proof.
  destruct a as [a1 a2], b as [b1 b2]. unfold key_eqb. cbn [fst snd].
  rewrite andb_true_iff.
  assert (O : forall x y : option string,
             match x, y with
             | Some s, Some s' => String.eqb s s'
             | None, None => true
             | _, _ => false
             end = true <-> x = y).
  { intros [s|] [s'|]; split; intro H; try discriminate H; try reflexivity.
    - apply String.eqb_eq in H. congruence.
    - injection H as ->. apply String.eqb_refl. }
  rewrite !O. split.
  - intros [-> ->]. reflexivity.
  - intro H. injection H as -> ->. split; reflexivity.
Qed.

Lemma key_eqb_refl (a : option string * option string) : key_eqb a a = true.
Proof.
  apply key_eqb_eq. reflexivity.
Qed.


Lemma filter_uncached (k : option string * option string)
    (l : list (option string * option string)) :
  existsb (key_eqb k) l = false ->
  filter (fun k' => negb (key_eqb k k')) l = l.
Proof.
  induction l as [|x l IH]; cbn [existsb filter]; intro H; [reflexivity |].
  apply orb_false_iff in H. destruct H as [Hx Hl].
  rewrite Hx. cbn [negb]. rewrite (IH Hl). reflexivity.
Qed.

Lemma existsb_firstn {A : Type} (f : A -> bool) (n : nat) (l : list A) :
  existsb f l = false -> existsb f (firstn n l) = false.
Proof.
  revert n. induction l as [|x l IH]; intros [|n] H; try reflexivity.
  cbn [existsb firstn] in *. apply orb_false_iff in H. destruct H as [Hx Hl].
  rewrite Hx. cbn [orb]. apply IH. exact Hl.
Qed.


End Memo.



(** ** The copy worker *)

Section Resolutions.

Variable env : Env.
Variable drs_uri : string.

Lemma resolutions_app (t t' : list event) :
  resolutions env drs_uri (t ++ t')
  = resolutions env drs_uri t + resolutions env drs_uri t'.
Proof.
  unfold resolutions. rewrite filter_app, length_app. reflexivity.
Qed.

Lemma adds_ret {A : Type} (a : A) : adds env drs_uri 0 (ret a).
Proof. intro w. reflexivity. Qed.

Lemma adds_raise {A : Type} (e : exn) : adds env drs_uri 0 (@raise A e).
Proof. intro w. reflexivity. Qed.

Lemma adds_lift {A : Type} (r : result A) : adds env drs_uri 0 (lift r).
Proof. intro w. reflexivity. Qed.

Lemma adds_emit (e : event) :
  resolves env drs_uri e = false -> adds env drs_uri 0 (emit e).
Proof.
  intros H w. unfold emit. cbn [snd trace].
  rewrite resolutions_app. unfold resolutions at 2. cbn [filter].
  rewrite H. cbn. lia.
Qed.

Lemma adds_bind {A B : Type} (n : nat) (m : M A) (k : A -> M B) :
  adds env drs_uri n m -> (forall a, adds env drs_uri 0 (k a)) ->
  adds env drs_uri n (bind m k).
Proof.
  intros Hm Hk w. unfold bind. specialize (Hm w).
  destruct (m w) as [[a | e] w']; cbn [snd] in *.
  - rewrite (Hk a w'). exact Hm.
  - exact Hm.
Qed.

(** A computation that returns without touching the world may be
    skipped. *)
Lemma adds_after_ok {A B : Type} (n : nat) (m : M A) (k : A -> M B) :
  (forall w, exists a, m w = (Ok a, w)) -> (forall a, adds env drs_uri n (k a)) ->
  adds env drs_uri n (bind m k).
Proof.
  intros Hm Hk w. unfold bind. destruct (Hm w) as [a ->]. apply Hk.
Qed.

Lemma adds_after_emit {A : Type} (n : nat) (e : event) (k : unit -> M A) :
  resolves env drs_uri e = false -> (forall u, adds env drs_uri n (k u)) ->
  adds env drs_uri n (bind (emit e) k).
Proof.
  intros He Hk w. unfold bind, emit. rewrite (Hk tt). cbn [trace].
  rewrite resolutions_app. unfold resolutions at 2. cbn [filter].
  rewrite He. cbn. lia.
Qed.

Lemma adds_call {A : Type} (e : event) (f : list event -> result A) :
  resolves env drs_uri e = false -> adds env drs_uri 0 (call e f).
Proof.
  intro He. unfold call. apply adds_after_emit; [exact He |].
  intros _ w. reflexivity.
Qed.

Lemma adds_after_token {A : Type} (n : nat) (k : string -> M A) :
  token_answers env -> (forall tok, adds env drs_uri n (k tok)) ->
  adds env drs_uri n (bind (call GetAccessToken (get_access_token env)) k).
Proof.
  intros Htok Hk w. unfold call, bind, emit, ask. cbn [trace].
  destruct (Htok (trace w ++ [GetAccessToken])%list) as [tok ->].
  rewrite (Hk tok). cbn [trace]. rewrite resolutions_app. cbn. lia.
Qed.

(** The request is counted whether the resolver answers or not. *)
Lemma adds_resolver_call {A B : Type} (e : event) (f : list event -> result A)
    (k : A -> M B) :
  resolves env drs_uri e = true -> (forall a, adds env drs_uri 0 (k a)) ->
  adds env drs_uri 1 (bind (call e f) k).
Proof.
  intros He Hk. apply adds_bind; [| exact Hk].
  intro w. unfold call, bind, emit, ask. cbn [snd trace].
  rewrite resolutions_app. unfold resolutions at 2. cbn [filter].
  rewrite He. cbn. lia.
Qed.

Ltac quiet :=
  repeat first
    [ apply adds_ret | apply adds_raise | apply adds_lift
    | apply adds_emit; reflexivity
    | apply adds_call; reflexivity
    | apply adds_bind; [| intro]
    | match goal with
      | |- adds _ _ _ (if ?b then _ else _) => destruct b
      end ].

Lemma get_drs_adds : token_answers env -> adds env drs_uri 1 (get_drs env drs_uri).
Proof.
  intro Htok. unfold get_drs.
  apply adds_after_token; [exact Htok |]. intro tok. cbv zeta.
  apply adds_after_emit; [reflexivity |]. intros _.
  apply adds_resolver_call.
  - unfold resolves. rewrite !String.eqb_refl. reflexivity.
  - intro resp. quiet.
Qed.

Lemma get_drs_info_adds :
  token_answers env -> PyStr.startswith drs_uri "drs://" = true ->
  adds env drs_uri 1 (get_drs_info env drs_uri).
Proof.
  intros Htok Hdrs. unfold get_drs_info. rewrite Hdrs.
  apply adds_bind; [apply get_drs_adds; exact Htok |].
  intro resp. quiet.
Qed.

End Resolutions.

(** C9.  With a token provider that answers and a [drs://] identifier,
    [_do_copy_drs] sends the resolver one request for the identifier when
    the destination starts with [gs://], and two when it does not and the
    first resolution returns: the second is made to name the local file. *)
Theorem do_copy_drs_resolutions
    (env : Env) (drs_uri dst : string) (threshold : Z) (indicator_type : Indicator)
    (workspace_name workspace_namespace : option string) (w : World) :
  token_answers env ->
  PyStr.startswith drs_uri "drs://" = true ->
  let after :=
    trace (snd (_do_copy_drs env drs_uri dst threshold indicator_type
                             workspace_name workspace_namespace w)) in
  (PyStr.startswith dst "gs://" = true ->
   resolutions env drs_uri after = 1 + resolutions env drs_uri (trace w))
  /\ (PyStr.startswith dst "gs://" = false ->
      (exists info w1, get_drs_info env drs_uri w = (Ok info, w1)) ->
      resolutions env drs_uri after = 2 + resolutions env drs_uri (trace w)).
Proof.
  intros Htok Hdrs after. subst after. unfold _do_copy_drs. split.
  - intro Hgs. rewrite Hgs.
    apply adds_bind; [apply get_drs_info_adds; assumption |].
    intro src_info. unfold get_drs_blob.
    repeat first
      [ apply adds_ret | apply adds_lift
      | apply adds_call; reflexivity
      | apply adds_bind; [| intro] ].
  - intros Hlocal (info & w1 & E). rewrite Hlocal.
    pose proof (get_drs_info_adds env drs_uri Htok Hdrs w) as H1.
    rewrite E in H1. cbn [snd] in H1.
    unfold bind at 1. rewrite E.
    match goal with
    | |- resolutions _ _ (trace (snd (?m w1))) = _ =>
        assert (H2 : adds env drs_uri 1 m)
    end.
    { apply adds_after_ok.
      - intro w0. eexists. reflexivity.
      - intro src_blob. apply adds_bind.
        + apply adds_bind; [apply get_drs_info_adds; assumption |].
          intro info'.
          repeat first [ apply adds_ret | apply adds_lift | apply adds_bind; [| intro] ].
        + intro dst_blob. apply adds_call. reflexivity. }
    rewrite (H2 w1), H1. reflexivity.
Qed.

Lemma do_copy_drs_resolutions_witness :
  resolutions demo_env "drs://host/object"
    (trace (snd (_do_copy_drs demo_env "drs://host/object" "gs://dst/" 1024 bar
                              (Some "ws") (Some "project") fresh))) = 1
  /\ resolutions demo_env "drs://host/object"
       (trace (snd (_do_copy_drs demo_env "drs://host/object" "/tmp/" 1024 bar
                                 (Some "ws") (Some "project") fresh))) = 2.
Proof.
  assert (T : token_answers demo_env) by (intro t; exists "tok"; reflexivity).
  split.
  - apply (proj1 (do_copy_drs_resolutions demo_env "drs://host/object" "gs://dst/"
                    1024 bar (Some "ws") (Some "project") fresh T eq_refl)).
    reflexivity.
  - apply (proj2 (do_copy_drs_resolutions demo_env "drs://host/object" "/tmp/"
                    1024 bar (Some "ws") (Some "project") fresh T eq_refl)).
    + reflexivity.
    + eexists. eexists. vm_compute. reflexivity.
Defined.

(** * Further properties of the module *)

(** ** URL parsers *)

Section ParserInversion.

Lemma parse_gs_url_inv (u b k : string) :
  _parse_gs_url u = Ok (b, k) ->
  u = "gs://" ++ b ++ "/" ++ k /\ PyStr.has_slash b = false.
Proof.
  unfold _parse_gs_url, _GS_SCHEMA. intro H.
  destruct (PyStr.startswith u "gs://") eqn:P; [| discriminate H].
  apply startswith_inv in P. revert H P.
  generalize (PyStr.drop (String.length "gs://") u). intros rest H P.
  destruct (split1_shape rest) as [[_ E] | (b' & k' & Hb & Er & E)];
    rewrite E in H; [discriminate H |].
  injection H as <- <-. subst rest. split; [exact P | exact Hb].
Qed.

End ParserInversion.

(** X1.  What [_parse_gs_url] returns puts the URL back together: the URL is
    the scheme, the bucket, a slash and the key, and the bucket has no
    slash. *)
Theorem parse_gs_url_round_trip (u b k : string) :
  _parse_gs_url u = Ok (b, k) ->
  u = "gs://" ++ b ++ "/" ++ k /\ PyStr.has_slash b = false.
Proof.
  intro H. destruct (parse_gs_url_inv u b k H) as [E Hb].
  split; [exact E | exact Hb].
Qed.

Lemma parse_gs_url_round_trip_witness :
  "gs://bucket/dir/obj" = "gs://" ++ "bucket" ++ "/" ++ "dir/obj"
  /\ PyStr.has_slash "bucket" = false.
Proof.
  apply (parse_gs_url_round_trip "gs://bucket/dir/obj" "bucket" "dir/obj").
  reflexivity.
Defined.

(** X2.  Whenever the parser of the source side returns, the parser of the
    destination side returns the same bucket and key. *)
Theorem parsers_agree (u b k : string) :
  _parse_gs_url u = Ok (b, k) -> _bucket_name_and_key u = Ok (b, k).
Proof.
  intro H. destruct (parse_gs_url_inv u b k H) as [-> Hb].
  apply bucket_name_and_key_slash. exact Hb.
Qed.

Lemma parsers_agree_witness :
  _bucket_name_and_key "gs://bucket/" = Ok ("bucket", "").
Proof.
  apply (parsers_agree "gs://bucket/" "bucket" ""). reflexivity.
Defined.

(** X3.  [_bucket_name_and_key] fails on exactly the URLs that do not start
    with [gs://], and then with [AssertionError]; on the others the bucket
    it returns has no slash, and the key is empty or the URL is the scheme,
    the bucket, a slash and the key. *)
Theorem bucket_name_and_key_domain (u : string) :
  (PyStr.startswith u "gs://" = false ->
   _bucket_name_and_key u = Raise (AssertionError ""))
  /\ (PyStr.startswith u "gs://" = true ->
      exists b k, _bucket_name_and_key u = Ok (b, k)
                  /\ PyStr.has_slash b = false
                  /\ (k = "" \/ u = "gs://" ++ b ++ "/" ++ k)).
Proof.
  split.
  - apply bucket_name_and_key_no_prefix.
  - intro H. destruct (bucket_name_and_key_total u H) as (b & k & Hb & E & F).
    exists b, k. repeat split; try assumption.
    destruct F as [F | [F _]]; [right; exact F | left; exact F].
Qed.

Lemma bucket_name_and_key_domain_witness :
  _bucket_name_and_key "s3://bucket/key" = Raise (AssertionError "")
  /\ exists b k, _bucket_name_and_key "gs://bucket" = Ok (b, k)
                 /\ PyStr.has_slash b = false
                 /\ (k = "" \/ "gs://bucket" = "gs://" ++ b ++ "/" ++ k).
Proof.
  split.
  - apply (proj1 (bucket_name_and_key_domain "s3://bucket/key")). reflexivity.
  - apply (proj2 (bucket_name_and_key_domain "gs://bucket")). reflexivity.
Defined.

(** ** Normalizers *)

(** X4.  When the loop over the candidates stops at a URL, that URL starts
    with the storage scheme and is the ['url'] of a dict in the list. *)
Theorem first_gs_url_sound (l : list json) (u : string) :
  first_gs_url l = Ok (Some u) ->
  PyStr.startswith u _GS_SCHEMA = true
  /\ exists r, In (JObj r) l /\ Py.lookup "url" r = Some (JStr u).
Proof.
  induction l as [|c l IH]; intro H; [discriminate H |].
  cbn [first_gs_url] in H.
  assert (Tail : first_gs_url l = Ok (Some u) ->
                 PyStr.startswith u _GS_SCHEMA = true
                 /\ exists r, In (JObj r) (c :: l) /\ Py.lookup "url" r = Some (JStr u)).
  { intro T. destruct (IH T) as (P & r & I & L).
    split; [exact P |]. exists r. split; [right; exact I | exact L]. }
  destruct (Py.contains "url" c) as [[|]|e] eqn:C; cbn [rbind] in H;
    [| apply Tail; exact H | discriminate H].
  destruct c as [| | | | |r]; try discriminate H.
  cbn [Py.getitem] in H.
  destruct (Py.lookup "url" r) as [[| | |s| |]|] eqn:L; try discriminate H.
  cbn [rbind] in H.
  destruct (PyStr.startswith s _GS_SCHEMA) eqn:P; [| apply Tail; exact H].
  injection H as <-. split; [exact P |].
  exists r. split; [left; reflexivity | exact L].
Qed.

Lemma first_gs_url_sound_witness :
  PyStr.startswith "gs://bucket/key" _GS_SCHEMA = true
  /\ exists r, In (JObj r) [JObj [("url", JStr "s3://x")];
                            JObj [("url", JStr "gs://bucket/key")]]
               /\ Py.lookup "url" r = Some (JStr "gs://bucket/key").
Proof.
  apply (first_gs_url_sound _ "gs://bucket/key"). reflexivity.
Defined.

(** X5.  A record the legacy normalizer returns has no access URL, a string
    bucket without a slash and a string key. *)
Theorem v2_record_shape (drs_url : string) (drs_data : json) (i : DRSInfo) :
  _drs_info_from_martha_v2 drs_url drs_data = Ok i ->
  access_url i = JNull
  /\ exists b k, bucket_name i = JStr b /\ key i = JStr k
                 /\ PyStr.has_slash b = false.
Proof.
  unfold _drs_info_from_martha_v2. intro H.
  destruct (Py.getitem drs_data "dos") as [dos|]; [| discriminate H].
  cbn [rbind] in H.
  destruct (Py.contains "data_object" dos) as [[|]|]; try discriminate H.
  cbn [rbind] in H.
  destruct (Py.getitem dos "data_object") as [data_object|]; [| discriminate H].
  cbn [rbind] in H.
  destruct (Py.contains "urls" data_object) as [[|]|]; try discriminate H.
  cbn [rbind negb] in H.
  destruct (Py.getitem data_object "urls") as [urls|]; [| discriminate H].
  cbn [rbind] in H.
  destruct (Py.iter urls) as [l|]; [| discriminate H].
  cbn [rbind] in H.
  destruct (first_gs_url l) as [[data_url|]|]; try discriminate H.
  cbn [rbind] in H.
  destruct (_parse_gs_url data_url) as [[b k]|] eqn:P; [| discriminate H].
  cbn [rbind] in H.
  destruct (_get_drs_gs_creds drs_data); [| discriminate H].
  cbn [rbind] in H.
  destruct (Py.get data_object "name"); [| discriminate H].
  destruct (Py.get data_object "size"); [| discriminate H].
  destruct (Py.get data_object "updated"); [| discriminate H].
  cbn [rbind] in H. injection H as <-. cbn.
  split; [reflexivity |]. exists b, k.
  repeat split. apply (parse_gs_url_inv data_url b k P).
Qed.

Lemma v2_record_shape_witness :
  access_url (mkDRSInfo JNull JNull (JStr "bucket") (JStr "key") JNull (JNum 7) JNull)
  = JNull
  /\ exists b k,
       bucket_name (mkDRSInfo JNull JNull (JStr "bucket") (JStr "key") JNull (JNum 7) JNull)
       = JStr b
       /\ key (mkDRSInfo JNull JNull (JStr "bucket") (JStr "key") JNull (JNum 7) JNull)
          = JStr k
       /\ PyStr.has_slash b = false.
Proof.
  apply (v2_record_shape "drs://host/object" (JObj legacy_example)). reflexivity.
Defined.

(** X6.  A current-shape response with ['gsUri'] whose service-account blob
    is an object without ['data'] does not normalize: the lookup of
    ['data'] raises [KeyError]. *)
Theorem v3_credentials_without_data
    (drs_url : string) (d sa : list (string * json)) (g : json) :
  Py.lookup "gsUri" d = Some g ->
  Py.lookup "googleServiceAccount" d = Some (JObj sa) ->
  Py.lookup "data" sa = None ->
  _drs_info_from_martha_v3 drs_url (JObj d) = Raise (KeyError "data").
Proof.
  intros Hg Hsa Hdata. unfold _drs_info_from_martha_v3, _get_drs_gs_creds.
  cbn [Py.contains Py.get rbind]. rewrite Hg, Hsa.
  cbn [negb rbind Py.getitem]. rewrite Hdata. reflexivity.
Qed.

Lemma v3_credentials_without_data_witness :
  _drs_info_from_martha_v3 "drs://host/object"
    (JObj [("gsUri", JStr "gs://b/k"); ("googleServiceAccount", JObj [])])
  = Raise (KeyError "data").
Proof.
  eapply v3_credentials_without_data; reflexivity.
Defined.

(** X7.  A response that is not an object is never normalized, by either
    normalizer. *)
Theorem normalizers_need_an_object (drs_url : string) (drs_data : json) :
  (forall d, drs_data <> JObj d) ->
  (exists e, _drs_info_from_martha_v2 drs_url drs_data = Raise e)
  /\ (exists e, _drs_info_from_martha_v3 drs_url drs_data = Raise e).
Proof.
  intro H. destruct drs_data as [| | |s|l|d];
    try (split; eexists; reflexivity).
  - split; [eexists; reflexivity |].
    unfold _drs_info_from_martha_v3. cbn [Py.contains rbind].
    destruct (PyStr.occurs "gsUri" s); eexists; reflexivity.
  - split; [eexists; reflexivity |].
    unfold _drs_info_from_martha_v3. cbn [Py.contains rbind].
    destruct (existsb (Py.is_str "gsUri") l); eexists; reflexivity.
  - exfalso. apply (H d). reflexivity.
Qed.

Lemma normalizers_need_an_object_witness :
  (exists e, _drs_info_from_martha_v2 "drs://host/object" (JArr []) = Raise e)
  /\ (exists e, _drs_info_from_martha_v3 "drs://host/object" (JArr []) = Raise e).
Proof.
  apply (normalizers_need_an_object "drs://host/object" (JArr [])).
  intros d H. discriminate H.
Defined.

(** ** The resolver client and its callers *)

(** X8.  On a 200 answer [get_drs] returns the response after exactly three
    events: the token request, the debug line, and one POST to the resolver
    with the bearer token and the body [{"url": drs_url}]. *)
Theorem get_drs_200 (env : Env) (drs_url : string) (w : World)
    (tok : string) (resp : Response) :
  (forall t, get_access_token env t = Ok tok) ->
  (forall t, http_post env t (MARTHA_URL env) ("Bearer " ++ tok)
                       (JObj [("url", JStr drs_url)]) = Ok resp) ->
  status_code resp = 200%Z ->
  get_drs env drs_url w
  = (Ok resp,
     mkWorld (trace w ++ [GetAccessToken;
                          LogDebug ("Resolving DRS uri '" ++ drs_url
                                    ++ "' through '" ++ MARTHA_URL env ++ "'.");
                          HttpPost (MARTHA_URL env) ("Bearer " ++ tok)
                                   (JObj [("url", JStr drs_url)])])%list
             (rp_cache w) (queue w)).
Proof.
  intros Htok Hpost Hstatus. unfold get_drs. run_world.
  rewrite Htok, Hpost, Hstatus. cbn [Z.eqb Pos.eqb negb].
  rewrite <- !app_assoc. reflexivity.
Qed.

Lemma get_drs_200_witness :
  fst (get_drs demo_env "drs://host/object" fresh)
  = Ok (json_response 200 (JObj current_example)).
Proof.
  rewrite (get_drs_200 demo_env "drs://host/object" fresh "tok"
             (json_response 200 (JObj current_example)));
    try reflexivity; intro t; reflexivity.
Defined.

(** X9.  When the token provider raises, [get_drs] raises the same and
    nothing is sent to the resolver. *)
Theorem get_drs_token_failure (env : Env) (drs_url : string) (w : World) (e : exn) :
  get_access_token env (trace w ++ [GetAccessToken])%list = Raise e ->
  get_drs env drs_url w
  = (Raise e, mkWorld (trace w ++ [GetAccessToken])%list (rp_cache w) (queue w)).
Proof.
  intro Htok. unfold get_drs. run_world. rewrite Htok. reflexivity.
Qed.

Lemma get_drs_token_failure_witness :
  get_drs no_token_env "drs://host/object" fresh
  = (Raise (ExternalError "no credentials"), mkWorld [GetAccessToken] [] []).
Proof.
  apply (get_drs_token_failure no_token_env "drs://host/object" fresh).
  reflexivity.
Defined.

(** X10.  On any answer with a status other than 200 [get_drs] never
    returns, and whatever it raises, the raw body has been logged as a
    warning, as the last of four events. *)
Theorem get_drs_non_200_logs_and_raises (env : Env) (drs_url : string) (w : World)
    (tok : string) (resp : Response) :
  (forall t, get_access_token env t = Ok tok) ->
  (forall t, http_post env t (MARTHA_URL env) ("Bearer " ++ tok)
                       (JObj [("url", JStr drs_url)]) = Ok resp) ->
  status_code resp <> 200%Z ->
  exists e,
    get_drs env drs_url w
    = (Raise e,
       mkWorld (trace w ++ [GetAccessToken;
                            LogDebug ("Resolving DRS uri '" ++ drs_url
                                      ++ "' through '" ++ MARTHA_URL env ++ "'.");
                            HttpPost (MARTHA_URL env) ("Bearer " ++ tok)
                                     (JObj [("url", JStr drs_url)]);
                            LogWarning (content resp)])%list
               (rp_cache w) (queue w)).
Proof.
  intros Htok Hpost Hstatus. unfold get_drs. run_world.
  rewrite Htok, Hpost.
  destruct (Z.eqb_spec 200 (status_code resp)) as [E | _]; [congruence |].
  cbn [negb trace rp_cache queue]. rewrite <- !app_assoc. cbn [app].
  destruct (json_body resp) as [j|]; [| eexists; reflexivity].
  destruct (Py.contains "response" j) as [[|]|]; try (eexists; reflexivity).
  destruct (Py.getitem j "response") as [r|]; [| eexists; reflexivity].
  destruct (Py.contains "text" r) as [[|]|]; try (eexists; reflexivity).
  destruct (Py.getitem r "text"); eexists; reflexivity.
Qed.

Lemma get_drs_non_200_logs_and_raises_witness :
  exists e,
    get_drs null_response_env "drs://host/object" fresh
    = (Raise e,
       mkWorld [GetAccessToken;
                LogDebug "Resolving DRS uri 'drs://host/object' through 'https://martha.example/martha_v3'.";
                HttpPost "https://martha.example/martha_v3" "Bearer tok"
                         (JObj [("url", JStr "drs://host/object")]);
                LogWarning ""] [] []).
Proof.
  apply (get_drs_non_200_logs_and_raises null_response_env "drs://host/object"
           fresh "tok" (json_response 500 (JObj [("response", JNull)]))).
  - intro t. reflexivity.
  - intro t. reflexivity.
  - discriminate.
Defined.

Section Frames.

Variable env : Env.

Lemma frames_ret {A : Type} (a : A) : frames (ret a).
Proof. intro w. split; reflexivity. Qed.

Lemma frames_raise {A : Type} (e : exn) : frames (@raise A e).
Proof. intro w. split; reflexivity. Qed.

Lemma frames_lift {A : Type} (r : result A) : frames (lift r).
Proof. intro w. split; reflexivity. Qed.

Lemma frames_emit (e : event) : frames (emit e).
Proof. intro w. split; reflexivity. Qed.

Lemma frames_bind {A B : Type} (m : M A) (k : A -> M B) :
  frames m -> (forall a, frames (k a)) -> frames (bind m k).
Proof.
  intros Hm Hk w. unfold bind. specialize (Hm w).
  destruct (m w) as [[a | e] w']; cbn [snd] in *; [| exact Hm].
  destruct (Hk a w') as [C Q]. destruct Hm as [C' Q'].
  split; congruence.
Qed.

Lemma frames_call {A : Type} (e : event) (f : list event -> result A) :
  frames (call e f).
Proof.
  unfold call. apply frames_bind; [apply frames_emit |].
  intros _ w. split; reflexivity.
Qed.

Ltac framed :=
  repeat first
    [ apply frames_ret | apply frames_raise | apply frames_lift
    | apply frames_emit | apply frames_call
    | apply frames_bind; [| intro]
    | match goal with
      | |- frames (if ?b then _ else _) => destruct b
      | |- frames (match ?x with _ => _ end) => destruct x
      end ].

Lemma get_drs_info_frames (drs_url : string) : frames (get_drs_info env drs_url).
Proof.
  unfold get_drs_info, get_drs. framed.
Qed.

Lemma do_copy_drs_frames_all (drs_uri dst : string) (threshold : Z)
    (indicator_type : Indicator) (ws ns : option string) :
  frames (_do_copy_drs env drs_uri dst threshold indicator_type ws ns).
Proof.
  unfold _do_copy_drs, get_drs_blob.
  apply frames_bind; [apply get_drs_info_frames | intro].
  apply frames_bind; [framed | intro].
  apply frames_bind; [| intro; apply frames_call].
  destruct (PyStr.startswith dst "gs://").
  - framed.
  - apply frames_bind; [apply get_drs_info_frames | intro]. framed.
Qed.

End Frames.

(** X11.  The copy worker never touches the requester-pays cache or the
    copy queue, however it ends: it enables nothing and submits nothing. *)
Theorem do_copy_drs_keeps_cache_and_queue
    (env : Env) (drs_uri dst : string) (threshold : Z) (indicator_type : Indicator)
    (workspace_name workspace_namespace : option string) (w : World) :
  let w' := snd (_do_copy_drs env drs_uri dst threshold indicator_type
                              workspace_name workspace_namespace w) in
  rp_cache w' = rp_cache w /\ queue w' = queue w.
Proof.
  apply do_copy_drs_frames_all.
Qed.

(** X12.  The URL [info] reports for a record with a string bucket without
    a slash and a string key parses back, with [_parse_gs_url], to that
    bucket and that key; name, size and update time are passed on as they
    are, and [info] does nothing beyond the resolution. *)
Theorem info_url_parses_back (env : Env) (drs_url : string) (w w' : World)
    (i : DRSInfo) (b k : string) :
  get_drs_info env drs_url w = (Ok i, w') ->
  bucket_name i = JStr b -> key i = JStr k -> PyStr.has_slash b = false ->
  exists url,
    info env drs_url w
    = (Ok (JObj [("name", name i); ("size", size i); ("updated", updated i);
                 ("url", JStr url)]), w')
    /\ _parse_gs_url url = Ok (b, k).
Proof.
  intros H Hb Hk Hslash. exists ("gs://" ++ b ++ "/" ++ k). split.
  - unfold info, bind. rewrite H, Hb, Hk. reflexivity.
  - apply parse_gs_url_slash. exact Hslash.
Qed.

Lemma info_url_parses_back_witness :
  exists url,
    info legacy_env "drs://host/object" fresh
    = (Ok (JObj [("name", JNull); ("size", JNum 7); ("updated", JNull);
                 ("url", JStr url)]),
       snd (get_drs_info legacy_env "drs://host/object" fresh))
    /\ _parse_gs_url url = Ok ("bucket", "key").
Proof.
  apply (info_url_parses_back legacy_env "drs://host/object" fresh _
           (mkDRSInfo JNull JNull (JStr "bucket") (JStr "key") JNull (JNum 7) JNull));
    reflexivity.
Defined.

(** X13.  For a URL that is not a DRS URI [blob_for_url] contacts nobody
    and ends as [copy_client.blob_for_url] ends on that URL, with its blob
    or with its exception; for a DRS URI that resolves, it gives the bucket
    blob of the resolved bucket, key and credentials, billed to the caller's
    namespace. *)
Theorem blob_for_url_dispatch (env : Env) (other : string -> result Blob)
    (url : string) (ns : option string) (w : World) :
  (PyStr.startswith url "drs://" = false ->
   blob_for_url env other url ns w = (other url, w))
  /\ (forall i w',
        get_drs_info env url w = (Ok i, w') ->
        blob_for_url env other url ns w
        = (Ok (GSBlob (bucket_name i) (key i) (credentials i) ns), w')).
Proof.
  unfold blob_for_url. split.
  - intro H. rewrite H. reflexivity.
  - intros i w' H.
    destruct (PyStr.startswith url "drs://") eqn:P.
    + unfold get_drs_blob, bind. rewrite H. reflexivity.
    + unfold get_drs_info in H. rewrite P in H. discriminate H.
Qed.

Lemma blob_for_url_dispatch_witness :
  blob_for_url demo_env refusing_blob_for_url "gs://bucket" (Some "project") fresh
  = (Raise (ValueError "no key in gs://bucket"), fresh)
  /\ fst (blob_for_url demo_env refusing_blob_for_url "drs://host/object"
                       (Some "project") fresh)
     = Ok (GSBlob (JStr "bucket") (JStr "dir/obj.bam")
                  (JObj [("client_email", JStr "sa@example.org")]) (Some "project")).
Proof.
  split.
  - apply (proj1 (blob_for_url_dispatch demo_env refusing_blob_for_url "gs://bucket"
                    (Some "project") fresh)).
    reflexivity.
  - rewrite (proj2 (blob_for_url_dispatch demo_env refusing_blob_for_url
                      "drs://host/object" (Some "project") fresh)
               (mkDRSInfo (JObj [("client_email", JStr "sa@example.org")]) JNull
                          (JStr "bucket") (JStr "dir/obj.bam") (JStr "obj.bam")
                          (JNum 1024) (JStr "2020-01-01T00:00:00Z"))
               (snd (get_drs_info demo_env "drs://host/object" fresh)));
      reflexivity.
Defined.

(** ** Destinations *)

Section Targets.


Lemma has_slash_app (a n : string) :
  PyStr.has_slash (a ++ String PyStr.slash n) = true.
Proof.
  induction a as [|c a IH]; simpl; [reflexivity |].
  rewrite IH. apply orb_true_r.
Qed.

Lemma last_segment_app (a n : string) :
  PyStr.last_segment (a ++ String PyStr.slash n) = PyStr.last_segment n.
Proof.
  induction a as [|c a IH].
  - reflexivity.
  - change (String c a ++ String PyStr.slash n)
      with (String c (a ++ String PyStr.slash n)).
    cbn [PyStr.last_segment PyStr.has_slash].
    rewrite has_slash_app, orb_true_r. exact IH.
Qed.

Lemma endswith_slash_inv (a : string) :
  PyStr.endswith_slash a = true -> a = PyStr.drop_last a ++ "/".
Proof.
  induction a as [|c a IH]; intro H; [discriminate H |].
  destruct a as [|c' a].
  - cbn in H. apply Ascii.eqb_eq in H. subst c. reflexivity.
  - change (PyStr.endswith_slash (String c (String c' a)))
      with (PyStr.endswith_slash (String c' a)) in H.
    change (PyStr.drop_last (String c (String c' a)))
      with (String c (PyStr.drop_last (String c' a))).
    cbn [append]. f_equal. apply IH. exact H.
Qed.

Lemma string_app_assoc (a b c : string) : (a ++ b) ++ c = a ++ b ++ c.
Proof.
  induction a as [|x a IH]; simpl; [reflexivity | rewrite IH; reflexivity].
Qed.

End Targets.







(** ** The cache of requester pays *)

Section Cache.

Variable env : Env.

Lemma enable_requester_pays_body_frames (ws ns : option string) :
  frames (enable_requester_pays_body env ws ns).
Proof.
  unfold enable_requester_pays_body.
  destruct ws as [ws|]; [| apply frames_raise].
  destruct (String.eqb ws ""); [apply frames_raise |]. cbv zeta.
  apply frames_bind; [apply frames_emit | intro].
  apply frames_bind; [apply frames_call | intro].
  apply frames_bind; [apply frames_call | intro].
  destruct (negb _); [apply frames_emit | apply frames_ret].
Qed.

Lemma enable_requester_pays_body_named (ws ns : option string) (w w' : World) (u : unit) :
  enable_requester_pays_body env ws ns w = (Ok u, w') -> has_name (ws, ns) = true.
Proof.
  unfold enable_requester_pays_body, has_name. cbn [fst].
  destruct ws as [ws|]; [| discriminate].
  destruct (String.eqb ws ""); [discriminate | reflexivity].
Qed.

Lemma filter_shrinks (k : option string * option string)
    (l : list (option string * option string)) :
  existsb (key_eqb k) l = true ->
  S (List.length (filter (fun k' => negb (key_eqb k k')) l)) <= List.length l.
Proof.
  induction l as [|x l IH]; cbn [existsb filter List.length]; intro H;
    [discriminate H |].
  destruct (key_eqb k x); cbn [negb orb] in *.
  - pose proof (filter_length_le (fun k' => negb (key_eqb k k')) l). lia.
  - cbn [List.length]. specialize (IH H). lia.
Qed.

Lemma forallb_filter {A : Type} (p f : A -> bool) (l : list A) :
  forallb p l = true -> forallb p (filter f l) = true.
Proof.
  induction l as [|x l IH]; cbn [forallb filter]; intro H; [reflexivity |].
  apply andb_true_iff in H. destruct H as [Hx Hl].
  destruct (f x); cbn [forallb]; [rewrite Hx |]; auto.
Qed.

Lemma forallb_firstn {A : Type} (p : A -> bool) (n : nat) (l : list A) :
  forallb p l = true -> forallb p (firstn n l) = true.
Proof.
  revert n. induction l as [|x l IH]; intros [|n] H; try reflexivity.
  cbn [forallb firstn] in *. apply andb_true_iff in H. destruct H as [Hx Hl].
  rewrite Hx. apply IH. exact Hl.
Qed.

Lemma cached_has_name (k : option string * option string)
    (l : list (option string * option string)) :
  existsb (key_eqb k) l = true -> forallb has_name l = true -> has_name k = true.
Proof.
  induction l as [|x l IH]; cbn [existsb forallb]; intros H F; [discriminate H |].
  apply andb_true_iff in F. destruct F as [Fx Fl].
  destruct (key_eqb k x) eqn:E.
  - apply key_eqb_eq in E. subst x. exact Fx.
  - apply IH; assumption.
Qed.

(** Membership after a hit. *)
Lemma existsb_move_to_front (k p : option string * option string)
    (l : list (option string * option string)) :
  existsb (key_eqb p) l = true ->
  existsb (key_eqb k) (p :: filter (fun k' => negb (key_eqb p k')) l)
  = existsb (key_eqb k) l.
Proof.
  intro Hp. cbn [existsb].
  destruct (key_eqb k p) eqn:E.
  - apply key_eqb_eq in E. subst k. rewrite Hp. reflexivity.
  - cbn [orb]. clear Hp.
    induction l as [|x l IH]; [reflexivity |].
    cbn [filter existsb].
    destruct (key_eqb p x) eqn:Ex; cbn [negb existsb].
    + apply key_eqb_eq in Ex. subst x. rewrite E. exact IH.
    + rewrite IH. reflexivity.
Qed.

(** A call that missed and returned is followed by a hit that changes
    nothing. *)
Lemma hit_after_miss (ws ns : option string) (w w1 : World) :
  cached (ws, ns) w = false ->
  enable_requester_pays env ws ns w = (Ok tt, w1) ->
  cached (ws, ns) w1 = true
  /\ enable_requester_pays env ws ns w1 = (Ok tt, w1).
Proof.
  intros Hmiss H.
  pose proof (enable_requester_pays_body_frames ws ns w) as [Hc _].
  destruct (enable_requester_pays_body env ws ns w) as [[u|e] w'] eqn:B;
    cbn [snd] in Hc.
  - assert (E : enable_requester_pays env ws ns w
                = (Ok tt, mkWorld (trace w')
                                  ((ws, ns) :: firstn 127 (rp_cache w))
                                  (queue w'))).
    { unfold enable_requester_pays. rewrite Hmiss, B, Hc. reflexivity. }
    rewrite E in H. clear E B.
    assert (Hrest : existsb (key_eqb (ws, ns)) (firstn 127 (rp_cache w)) = false)
      by (apply existsb_firstn; exact Hmiss).
    revert H Hrest. generalize (firstn 127 (rp_cache w)). intros rest H Hrest.
    injection H as <-.
    assert (Hhit : cached (ws, ns)
                     (mkWorld (trace w') ((ws, ns) :: rest) (queue w')) = true).
    { unfold cached. cbn [rp_cache existsb]. rewrite key_eqb_refl. reflexivity. }
    split; [exact Hhit |].
    unfold enable_requester_pays. cbv zeta. rewrite Hhit.
    cbn [rp_cache trace queue filter]. rewrite key_eqb_refl. cbn [negb].
    rewrite (filter_uncached _ _ Hrest). reflexivity.
  - unfold enable_requester_pays in H. rewrite Hmiss, B in H. discriminate H.
Qed.

End Cache.

(** X17.  The cache never grows beyond 128 pairs. *)
Theorem enable_requester_pays_cache_bounded
    (env : Env) (ws ns : option string) (w : World) :
  List.length (rp_cache w) <= lru_maxsize ->
  List.length (rp_cache (snd (enable_requester_pays env ws ns w))) <= lru_maxsize.
Proof.
  intro H. unfold enable_requester_pays.
  destruct (cached (ws, ns) w) eqn:C.
  - cbn [snd rp_cache List.length].
    pose proof (filter_shrinks (ws, ns) (rp_cache w) C). lia.
  - pose proof (enable_requester_pays_body_frames env ws ns w) as [Hc _].
    destruct (enable_requester_pays_body env ws ns w) as [[u|e] w'];
      cbn [snd rp_cache] in *.
    + apply firstn_le_length.
    + rewrite Hc. exact H.
Qed.

Lemma enable_requester_pays_cache_bounded_witness :
  List.length (rp_cache (snd (enable_requester_pays demo_env (Some "ws")
                                (Some "project")
                                (enable_each demo_env other_workspaces fresh))))
  <= lru_maxsize.
Proof.
  apply (enable_requester_pays_cache_bounded demo_env (Some "ws") (Some "project")
           (enable_each demo_env other_workspaces fresh)).
  vm_compute. apply le_n.
Defined.

(** X18.  Only pairs with a workspace name get into the cache: a call that
    fails its assertion is not remembered. *)
Theorem enable_requester_pays_caches_named_pairs
    (env : Env) (ws ns : option string) (w : World) :
  forallb has_name (rp_cache w) = true ->
  forallb has_name (rp_cache (snd (enable_requester_pays env ws ns w))) = true.
Proof.
  intro H. unfold enable_requester_pays.
  destruct (cached (ws, ns) w) eqn:C.
  - cbn [snd rp_cache forallb].
    rewrite (cached_has_name (ws, ns) (rp_cache w) C H).
    apply forallb_filter. exact H.
  - pose proof (enable_requester_pays_body_frames env ws ns w) as [Hc _].
    destruct (enable_requester_pays_body env ws ns w) as [[u|e] w'] eqn:B;
      cbn [snd rp_cache] in *.
    + apply forallb_firstn. cbn [forallb].
      rewrite (enable_requester_pays_body_named env ws ns w w' u B), Hc.
      exact H.
    + rewrite Hc. exact H.
Qed.

Lemma enable_requester_pays_caches_named_pairs_witness :
  forallb has_name (rp_cache (snd (enable_requester_pays demo_env None
                                     (Some "project") fresh))) = true.
Proof.
  apply (enable_requester_pays_caches_named_pairs demo_env None (Some "project") fresh).
  reflexivity.
Defined.

(** X19.  A refusal is remembered like a success.  When the workspace
    service answers with a status other than 204, the call still returns,
    its last event is the warning, the pair is in the cache, and the call
    that follows sends nothing: the enablement is not tried again. *)
Theorem refused_enablement_is_memoized
    (env : Env) (ws : string) (ns : option string) (w : World) (resp : Response) :
  token_answers env ->
  (forall t url authorization, http_put env t url authorization = Ok resp) ->
  status_code resp <> 204%Z ->
  ws <> "" ->
  cached (Some ws, ns) w = false ->
  let first := enable_requester_pays env (Some ws) ns w in
  fst first = Ok tt
  /\ (exists t msg, trace (snd first) = (t ++ [LogWarning msg])%list)
  /\ cached (Some ws, ns) (snd first) = true
  /\ enable_requester_pays env (Some ws) ns (snd first) = (Ok tt, snd first).
Proof.
  intros Htok Hput Hstatus Hws Hmiss first.
  assert (B : exists t msg,
             enable_requester_pays_body env (Some ws) ns w
             = (Ok tt, mkWorld (t ++ [LogWarning msg])%list (rp_cache w) (queue w))).
  { unfold enable_requester_pays_body.
    destruct (String.eqb_spec ws "") as [E | _]; [contradiction |].
    cbv zeta. run_world.
    match goal with
    | |- context [get_access_token env ?t] => destruct (Htok t) as [tok ->]
    end.
    rewrite Hput.
    destruct (Z.eqb_spec (status_code resp) 204) as [E | _]; [contradiction |].
    cbn [negb]. eexists. eexists. reflexivity. }
  destruct B as (t & msg & B).
  assert (E : first = (Ok tt, mkWorld (t ++ [LogWarning msg])%list
                                      ((Some ws, ns) :: firstn 127 (rp_cache w))
                                      (queue w))).
  { subst first. unfold enable_requester_pays. rewrite Hmiss, B. reflexivity. }
  destruct (hit_after_miss env (Some ws) ns w _ Hmiss E) as [Hhit Hnoop].
  rewrite E. cbn [fst snd trace].
  repeat split; try assumption. exists t, msg. reflexivity.
Qed.

Lemma refused_enablement_is_memoized_witness :
  fst (enable_requester_pays refused_env (Some "ws") (Some "project") fresh) = Ok tt
  /\ cached (Some "ws", Some "project")
            (snd (enable_requester_pays refused_env (Some "ws") (Some "project") fresh))
     = true.
Proof.
  assert (T : token_answers refused_env) by (intro t; exists "tok"; reflexivity).
  assert (P : forall t url authorization,
             http_put refused_env t url authorization = Ok (json_response 403 JNull))
    by (intros; reflexivity).
  assert (S : status_code (json_response 403 JNull) <> 204%Z) by discriminate.
  assert (N : "ws" <> "") by discriminate.
  destruct (refused_enablement_is_memoized refused_env "ws" (Some "project") fresh
              (json_response 403 JNull) T P S N eq_refl) as (H1 & _ & H3 & _).
  split; [exact H1 | exact H3].
Defined.

(** X20.  A failure is not remembered.  When the token provider raises,
    [enable_requester_pays] raises the same, nothing has been sent to the
    workspace service and the pair is still not in the cache, so the next
    call tries again. *)
Theorem failed_enablement_is_not_memoized
    (env : Env) (ws : string) (ns : option string) (w : World) (e : exn) :
  (forall t, get_access_token env t = Raise e) ->
  ws <> "" ->
  cached (Some ws, ns) w = false ->
  let first := enable_requester_pays env (Some ws) ns w in
  fst first = Raise e
  /\ puts (trace (snd first)) = puts (trace w)
  /\ cached (Some ws, ns) (snd first) = false.
Proof.
  intros Htok Hws Hmiss first. subst first.
  unfold enable_requester_pays. rewrite Hmiss.
  unfold enable_requester_pays_body.
  destruct (String.eqb_spec ws "") as [E | _]; [contradiction |].
  cbv zeta. run_world. rewrite Htok. cbn [fst snd trace].
  repeat split.
  - rewrite !puts_app. cbn. lia.
  - exact Hmiss.
Qed.

Lemma failed_enablement_is_not_memoized_witness :
  fst (enable_requester_pays no_token_env (Some "ws") (Some "project") fresh)
  = Raise (ExternalError "no credentials")
  /\ cached (Some "ws", Some "project")
            (snd (enable_requester_pays no_token_env (Some "ws") (Some "project") fresh))
     = false.
Proof.
  assert (T : forall t, get_access_token no_token_env t
                        = Raise (ExternalError "no credentials"))
    by (intro t; reflexivity).
  assert (N : "ws" <> "") by discriminate.
  destruct (failed_enablement_is_not_memoized no_token_env "ws" (Some "project")
              fresh (ExternalError "no credentials") T N eq_refl) as (H1 & _ & H3).
  split; [exact H1 | exact H3].
Defined.

(** X21.  A call for a cached pair returns at once: no event, no job, and
    the same pairs in the cache as before. *)
Theorem cached_call_is_silent (env : Env) (ws ns : option string) (w : World) :
  cached (ws, ns) w = true ->
  let after := enable_requester_pays env ws ns w in
  fst after = Ok tt
  /\ trace (snd after) = trace w
  /\ queue (snd after) = queue w
  /\ forall k, cached k (snd after) = cached k w.
Proof.
  intros Hhit after. subst after. unfold enable_requester_pays. rewrite Hhit.
  cbn [fst snd trace queue]. repeat split.
  intro k. unfold cached. cbn [rp_cache].
  apply existsb_move_to_front. exact Hhit.
Qed.

Lemma cached_call_is_silent_witness :
  trace (snd (enable_requester_pays demo_env (Some "ws") (Some "project")
                (mkWorld [] [(Some "other", None); (Some "ws", Some "project")] [])))
  = [].
Proof.
  apply (cached_call_is_silent demo_env (Some "ws") (Some "project")
           (mkWorld [] [(Some "other", None); (Some "ws", Some "project")] [])).
  reflexivity.
Defined.

(** ** Submitting copies *)

Section Submission.

Variable env : Env.

Lemma copy_items_enqueues (indicator_type : Indicator) (ws ns : option string)
    (items : list json) (w : World) :
  forallb well_formed_entry items = true ->
  copy_items (mkDRSCopyClient (multipart_threshold env) indicator_type ws ns) items w
  = (Ok tt,
     mkWorld (trace w) (rp_cache w)
             (queue w ++ map (job_of_entry env indicator_type ws ns) items)%list).
Proof.
  revert w. induction items as [|item items IH]; intros w H.
  - cbn [copy_items map]. unfold ret. rewrite app_nil_r. destruct w; reflexivity.
  - cbn [forallb] in H. apply andb_true_iff in H. destruct H as [Hitem Hitems].
    destruct item as [| | | | |d]; try discriminate Hitem.
    cbn [well_formed_entry] in Hitem. apply andb_true_iff in Hitem.
    unfold string_field in Hitem. destruct Hitem as [Hu Hd].
    cbn [copy_items map job_of_entry]. unfold field.
    unfold bind at 1. unfold lift at 1. cbn [Py.getitem].
    destruct (Py.lookup "drs_uri" d) as [[| | |u| |]|]; try discriminate Hu.
    unfold bind at 1. unfold lift at 1. cbn [Py.getitem].
    destruct (Py.lookup "dst" d) as [[| | |t| |]|]; try discriminate Hd.
    unfold bind at 1. unfold DRSCopyClient_copy at 1.
    rewrite (IH _ Hitems).
    cbn [trace rp_cache queue cc_multipart_threshold cc_indicator_type
         workspace workspace_namespace_].
    rewrite <- app_assoc. reflexivity.
Qed.

Lemma enable_requester_pays_adds (drs_uri : string) (ws ns : option string) :
  adds env drs_uri 0 (enable_requester_pays env ws ns).
Proof.
  intro w. unfold enable_requester_pays.
  destruct (cached (ws, ns) w); [reflexivity |].
  assert (B : adds env drs_uri 0 (enable_requester_pays_body env ws ns)).
  { unfold enable_requester_pays_body.
    destruct ws as [ws|]; [| apply adds_raise].
    destruct (String.eqb ws ""); [apply adds_raise |]. cbv zeta.
    apply adds_bind; [apply adds_emit; reflexivity | intro].
    apply adds_bind; [apply adds_call; reflexivity | intro].
    apply adds_bind; [apply adds_call; reflexivity | intro].
    destruct (negb _); [apply adds_emit; reflexivity | apply adds_ret]. }
  specialize (B w).
  destruct (enable_requester_pays_body env ws ns w) as [[u|e] w']; exact B.
Qed.

Lemma copy_items_adds (drs_uri : string) (cc : DRSCopyClient) (items : list json) :
  adds env drs_uri 0 (copy_items cc items).
Proof.
  induction items as [|item items IH]; cbn [copy_items]; [apply adds_ret |].
  apply adds_bind; [apply adds_lift | intro].
  apply adds_bind; [apply adds_lift | intro].
  apply adds_bind; [intro w; reflexivity | intro]. exact IH.
Qed.

End Submission.

(** X22.  For a well-formed manifest, once requester pays is enabled,
    [copy_batch] puts one job per entry on the queue, behind the jobs that
    are there, in the order of the manifest, each with the entry's
    ['drs_uri'] and ['dst'] and the caller's indicator and workspace; it
    does nothing else. *)
Theorem copy_batch_enqueues_in_order
    (env : Env) (items : list json) (indicator_type : Indicator)
    (ws ns : option string) (w w1 : World) :
  well_formed_manifest (JArr items) = true ->
  enable_requester_pays env ws ns w = (Ok tt, w1) ->
  copy_batch env (JArr items) indicator_type ws ns w
  = (Ok tt,
     mkWorld (trace w1) (rp_cache w1)
             (queue w1 ++ map (job_of_entry env indicator_type ws ns) items)%list).
Proof.
  intros Hm He. unfold copy_batch, validate.
  rewrite valid_manifest_schema, Hm.
  unfold bind at 1. unfold ret at 1.
  unfold bind at 1. rewrite He.
  unfold bind at 1. unfold lift at 1. cbn [Py.iter].
  apply copy_items_enqueues. exact Hm.
Qed.

Lemma copy_batch_enqueues_in_order_witness :
  queue (snd (copy_batch demo_env (JArr manifest_of_two) log (Some "ws")
                         (Some "project") fresh))
  = [mkJob (JStr "drs://host/a") (JStr "gs://dst/a") 1024 log (Some "ws") (Some "project");
     mkJob (JStr "drs://host/b") (JStr "/tmp/") 1024 log (Some "ws") (Some "project")].
Proof.
  rewrite (copy_batch_enqueues_in_order demo_env manifest_of_two log (Some "ws")
             (Some "project") fresh
             (snd (enable_requester_pays demo_env (Some "ws") (Some "project") fresh)));
    reflexivity.
Defined.

(** X23.  Submitting never asks the resolver: neither [copy] nor
    [copy_batch] sends a request for any identifier, whatever the manifest
    and however the call ends. *)
Theorem submission_never_resolves
    (env : Env) (drs_uri : string) (manifest : json) (u dst : string)
    (indicator_type : Indicator) (ws ns : option string) (w : World) :
  resolutions env drs_uri
    (trace (snd (copy_batch env manifest indicator_type ws ns w)))
  = resolutions env drs_uri (trace w)
  /\ resolutions env drs_uri (trace (snd (copy env u dst indicator_type ws ns w)))
     = resolutions env drs_uri (trace w).
Proof.
  split.
  - assert (A : adds env drs_uri 0 (copy_batch env manifest indicator_type ws ns)).
    { unfold copy_batch, validate.
      apply adds_bind;
        [destruct (valid manifest_schema manifest);
         [apply adds_ret | apply adds_raise] | intro].
      apply adds_bind; [apply enable_requester_pays_adds | intro].
      apply adds_bind; [apply adds_lift | intro]. apply copy_items_adds. }
    apply A.
  - assert (A : adds env drs_uri 0 (copy env u dst indicator_type ws ns)).
    { unfold copy. apply adds_bind; [apply enable_requester_pays_adds | intro].
      intro w0. reflexivity. }
    apply A.
Qed.

(** X24.  Without a workspace name nothing is submitted: [copy_batch] on a
    well-formed manifest, with no name or the empty name and that pair not
    in the cache, raises [AssertionError] and leaves the world as it was. *)
Theorem copy_batch_needs_workspace_name
    (env : Env) (manifest : json) (indicator_type : Indicator)
    (ws ns : option string) (w : World) :
  well_formed_manifest manifest = true ->
  has_name (ws, ns) = false ->
  cached (ws, ns) w = false ->
  copy_batch env manifest indicator_type ws ns w = (Raise (AssertionError ""), w).
Proof.
  intros Hm Hn Hc. unfold copy_batch, validate.
  rewrite valid_manifest_schema, Hm.
  unfold bind at 1. unfold ret at 1. unfold bind at 1.
  unfold enable_requester_pays. rewrite Hc.
  unfold enable_requester_pays_body, has_name in *. cbn [fst] in Hn.
  destruct ws as [s|]; [| reflexivity].
  destruct (String.eqb s ""); [reflexivity | discriminate Hn].
Qed.

Lemma copy_batch_needs_workspace_name_witness :
  copy_batch demo_env (JArr manifest_of_two) log None (Some "project") fresh
  = (Raise (AssertionError ""), fresh).
Proof.
  apply (copy_batch_needs_workspace_name demo_env (JArr manifest_of_two) log None
           (Some "project") fresh); reflexivity.
Defined.

(** X25.  Once requester pays is enabled, [copy] puts exactly one job on
    the queue, for the identifier as given (its scheme is not looked at
    here) and for the destination, with [.] standing in for an empty
    destination. *)
Theorem copy_enqueues_one_job
    (env : Env) (drs_uri dst : string) (indicator_type : Indicator)
    (ws ns : option string) (w w1 : World) :
  enable_requester_pays env ws ns w = (Ok tt, w1) ->
  copy env drs_uri dst indicator_type ws ns w
  = (Ok tt,
     mkWorld (trace w1) (rp_cache w1)
             (queue w1 ++ [mkJob (JStr drs_uri)
                                 (JStr (if String.eqb dst "" then "." else dst))
                                 (multipart_threshold env) indicator_type ws ns])%list).
Proof.
  intro He. unfold copy, bind. rewrite He. reflexivity.
Qed.

Lemma copy_enqueues_one_job_witness :
  queue (snd (copy demo_env "not-a-drs-uri" "" bar (Some "ws") (Some "project") fresh))
  = [mkJob (JStr "not-a-drs-uri") (JStr ".") 1024 bar (Some "ws") (Some "project")].
Proof.
  rewrite (copy_enqueues_one_job demo_env "not-a-drs-uri" "" bar (Some "ws")
             (Some "project") fresh
             (snd (enable_requester_pays demo_env (Some "ws") (Some "project") fresh)));
    reflexivity.
Defined.

(** X26.  The destination [copy_to_bucket] submits for a bucket name that
    is not empty and has no slash parses back, with the parser the worker
    uses, to that bucket and the given key. *)
Theorem copy_to_bucket_destination_parses_back
    (env : Env) (workspace_bucket : option string) (drs_uri dst_key b : string)
    (indicator_type : Indicator) (ws ns : option string) (w w1 : World) :
  b <> "" -> PyStr.has_slash b = false ->
  enable_requester_pays env ws ns w = (Ok tt, w1) ->
  exists dst,
    copy_to_bucket env workspace_bucket drs_uri dst_key (Some b) indicator_type ws ns w
    = (Ok tt,
       mkWorld (trace w1) (rp_cache w1)
               (queue w1 ++ [mkJob (JStr drs_uri) (JStr dst) (multipart_threshold env)
                                   indicator_type ws ns])%list)
    /\ _bucket_name_and_key dst = Ok (b, dst_key).
Proof.
  intros Hb Hslash He.
  exists (bucket_dst_url workspace_bucket dst_key (Some b)).
  assert (U : bucket_dst_url workspace_bucket dst_key (Some b)
              = if String.eqb dst_key "" then "gs://" ++ b
                else "gs://" ++ b ++ "/" ++ dst_key).
  { unfold bucket_dst_url.
    destruct (String.eqb_spec b "") as [E | _]; [contradiction |].
    cbv zeta. cbn [fmt_opt].
    destruct (String.eqb dst_key ""); [reflexivity |].
    apply string_app_assoc. }
  split.
  - unfold copy_to_bucket, copy, bind. rewrite He.
    unfold DRSCopyClient_copy.
    cbn [trace rp_cache queue cc_multipart_threshold cc_indicator_type
         workspace workspace_namespace_].
    rewrite U.
    destruct (String.eqb dst_key ""); reflexivity.
  - rewrite U. destruct (String.eqb_spec dst_key "") as [-> | _].
    + apply bucket_name_and_key_no_slash. exact Hslash.
    + apply bucket_name_and_key_slash. exact Hslash.
Qed.

Lemma copy_to_bucket_destination_parses_back_witness :
  exists dst,
    copy_to_bucket demo_env (Some "workspace-bucket") "drs://host/object" "dir/"
                   (Some "bucket") bar (Some "ws") (Some "project") fresh
    = (Ok tt,
       mkWorld (trace (snd (enable_requester_pays demo_env (Some "ws")
                              (Some "project") fresh)))
               [(Some "ws", Some "project")]
               ([] ++ [mkJob (JStr "drs://host/object") (JStr dst) 1024 bar
                             (Some "ws") (Some "project")])%list)
    /\ _bucket_name_and_key dst = Ok ("bucket", "dir/").
Proof.
  apply (copy_to_bucket_destination_parses_back demo_env (Some "workspace-bucket")
           "drs://host/object" "dir/" "bucket" bar (Some "ws") (Some "project") fresh
           (snd (enable_requester_pays demo_env (Some "ws") (Some "project") fresh)));
    try reflexivity.
  discriminate.
Defined.

Section Schema.

Lemma well_formed_entry_ok (item : json) :
  well_formed_entry item = true <-> entry_ok item.
Proof.
  unfold entry_ok. split.
  - destruct item as [| | | | |d]; try discriminate.
    cbn [well_formed_entry]. unfold string_field. intro H.
    apply andb_true_iff in H. destruct H as [Hu Hd].
    destruct (Py.lookup "drs_uri" d) as [[| | |u| |]|] eqn:Eu; try discriminate Hu.
    destruct (Py.lookup "dst" d) as [[| | |t| |]|] eqn:Ed; try discriminate Hd.
    exists d, u, t. repeat split; assumption.
  - intros (d & u & t & -> & Hu & Hd).
    cbn [well_formed_entry]. unfold string_field. rewrite Hu, Hd. reflexivity.
Qed.

End Schema.

(** X27.  [manifest_schema] accepts exactly the arrays whose elements are
    objects with a string ['drs_uri'] and a string ['dst']: the empty array
    passes, and so do entries that carry further keys. *)
Theorem manifest_schema_accepts (manifest : json) :
  valid manifest_schema manifest = true
  <-> exists items, manifest = JArr items /\ Forall entry_ok items.
Proof.
  rewrite valid_manifest_schema. split.
  - destruct manifest as [| | | |items|]; try discriminate.
    cbn [well_formed_manifest]. intro H. exists items. split; [reflexivity |].
    apply Forall_forall. intros item I. apply well_formed_entry_ok.
    rewrite forallb_forall in H. apply H. exact I.
  - intros (items & -> & H). cbn [well_formed_manifest].
    apply forallb_forall. intros item I. apply well_formed_entry_ok.
    rewrite Forall_forall in H. apply H. exact I.
Qed.

Lemma manifest_schema_accepts_witness :
  valid manifest_schema (JArr manifest_of_two) = true
  /\ valid manifest_schema (JArr []) = true.
Proof.
  split.
  - apply (proj2 (manifest_schema_accepts (JArr manifest_of_two))).
    exists manifest_of_two. split; [reflexivity |].
    apply Forall_cons; [| apply Forall_cons; [| apply Forall_nil]].
    + exists [("drs_uri", JStr "drs://host/a"); ("dst", JStr "gs://dst/a")],
        "drs://host/a", "gs://dst/a". repeat split.
    + exists [("drs_uri", JStr "drs://host/b"); ("dst", JStr "/tmp/"); ("note", JNum 1)],
        "drs://host/b", "/tmp/". repeat split.
  - apply (proj2 (manifest_schema_accepts (JArr []))).
    exists []. split; [reflexivity | constructor].
Defined.

(** ** The copy worker, once more *)

(** X28.  For a [gs://] destination and an identifier that resolves, the
    worker starts exactly one transfer, as its last event: from the bucket
    blob of the resolved record, with the record's credentials and the
    caller's namespace, to a bucket blob of the resolved target made
    without credentials; its result is the result of that transfer.  When
    the target cannot be resolved, no transfer is started. *)
Theorem do_copy_drs_to_bucket
    (env : Env) (drs_uri dst : string) (threshold : Z) (indicator_type : Indicator)
    (ws ns : option string) (w w1 : World) (i : DRSInfo) :
  get_drs_info env drs_uri w = (Ok i, w1) ->
  PyStr.startswith dst "gs://" = true ->
  (forall b k,
     _resolve_bucket_target env dst i = Ok (b, k) ->
     let src := GSBlob (bucket_name i) (key i) (credentials i) ns in
     let target := GSBlobBare (JStr b) k in
     let t := (trace w1 ++ [DoCopy src target threshold indicator_type])%list in
     _do_copy_drs env drs_uri dst threshold indicator_type ws ns w
     = (copy_client_do_copy env t src target threshold indicator_type,
        mkWorld t (rp_cache w1) (queue w1)))
  /\ (forall e,
        _resolve_bucket_target env dst i = Raise e ->
        _do_copy_drs env drs_uri dst threshold indicator_type ws ns w = (Raise e, w1)).
Proof.
  intros Hres Hgs. split.
  - intros b k Ht src target t. subst src target t.
    unfold _do_copy_drs. rewrite Hgs.
    unfold bind at 1. rewrite Hres.
    unfold get_drs_blob. run_world. rewrite Ht. reflexivity.
  - intros e Ht. unfold _do_copy_drs. rewrite Hgs.
    unfold bind at 1. rewrite Hres.
    unfold get_drs_blob. run_world. rewrite Ht. reflexivity.
Qed.

Lemma do_copy_drs_to_bucket_witness :
  _do_copy_drs demo_env "drs://host/object" "gs://dst/" 1024 bar (Some "ws")
               (Some "project") fresh
  = (Ok tt,
     mkWorld (trace (snd (get_drs_info demo_env "drs://host/object" fresh))
              ++ [DoCopy (GSBlob (JStr "bucket") (JStr "dir/obj.bam")
                                 (JObj [("client_email", JStr "sa@example.org")])
                                 (Some "project"))
                         (GSBlobBare (JStr "dst") (JStr "obj.bam")) 1024 bar])%list
             [] []).
Proof.
  apply (proj1 (do_copy_drs_to_bucket demo_env "drs://host/object" "gs://dst/" 1024
                  bar (Some "ws") (Some "project") fresh
                  (snd (get_drs_info demo_env "drs://host/object" fresh))
                  (mkDRSInfo (JObj [("client_email", JStr "sa@example.org")]) JNull
                             (JStr "bucket") (JStr "dir/obj.bam") (JStr "obj.bam")
                             (JNum 1024) (JStr "2020-01-01T00:00:00Z"))
                  eq_refl eq_refl) "dst" (JStr "obj.bam")).
  reflexivity.
Defined.

(** * The defects, at an input *)

(** C2.  A legacy response whose URL list is [s3://x] followed by
    [gs://bucket] has a first storage-scheme candidate, and normalization
    neither parses it into bucket and key nor fails with
    [DRSResolutionError]: the unpacking in [_parse_gs_url] raises
    [ValueError].  With [gs://bucket/key] in its place the bucket is
    [bucket] and the key is [key]. *)
Theorem v2_keyless_first_candidate_diverges :
  _drs_info_from_martha_v2 "drs://host/object" (JObj legacy_keyless)
  = Raise (ValueError "not enough values to unpack (expected 2, got 1)")
  /\ _drs_info_from_martha_v2 "drs://host/object" (JObj legacy_example)
     = Ok (mkDRSInfo JNull JNull (JStr "bucket") (JStr "key") JNull (JNum 7) JNull).
Proof.
  split; reflexivity.
Qed.

(** C5.  At a 500 answer with the body [{"response": null}] the resolver
    client does not fail with [DRSResolutionError] and an empty error text:
    the test ['text' in None] raises [TypeError], after the body has been
    logged. *)
Theorem get_drs_null_response_raises_TypeError :
  get_drs null_response_env "drs://host/object" fresh
  = (Raise TypeError,
     mkWorld [GetAccessToken;
              LogDebug "Resolving DRS uri 'drs://host/object' through 'https://martha.example/martha_v3'.";
              HttpPost "https://martha.example/martha_v3" "Bearer tok"
                       (JObj [("url", JStr "drs://host/object")]);
              LogWarning ""] [] []).
Proof.
  reflexivity.
Qed.

(** * Destinations, by the shape of the URL *)

Section Shapes.

Lemma has_slash_no_slash (s : string) :
  PyStr.has_slash s = false <-> no_slash s.
Proof.
  unfold no_slash. induction s as [|c s IH]; cbn [PyStr.has_slash list_ascii_of_string In].
  - split; [intros _ H; exact H | reflexivity].
  - rewrite orb_false_iff, IH. split.
    + intros [Hc Hs] [E | I]; [| exact (Hs I)].
      subst c. discriminate Hc.
    + intro H. split.
      * destruct (Ascii.eqb_spec c PyStr.slash) as [E | _]; [| reflexivity].
        exfalso. apply H. left. exact E.
      * intro I. apply H. right. exact I.
Qed.

Lemma last_segment_no_slash (s : string) :
  PyStr.has_slash s = false -> PyStr.last_segment s = s.
Proof.
  destruct s as [|c s]; [reflexivity |].
  intro H. cbn [PyStr.last_segment]. rewrite H. reflexivity.
Qed.

Lemma endswith_slash_app (d : string) : PyStr.endswith_slash (d ++ "/") = true.
Proof.
  induction d as [|c d IH]; [reflexivity |].
  change (String c d ++ "/") with (String c (d ++ "/")).
  destruct (d ++ "/") as [|c' r] eqn:E.
  - destruct d; discriminate E.
  - exact IH.
Qed.

Lemma drop_last_app (d : string) : PyStr.drop_last (d ++ "/") = d.
Proof.
  induction d as [|c d IH]; [reflexivity |].
  change (String c d ++ "/") with (String c (d ++ "/")).
  destruct (d ++ "/") as [|c' r] eqn:E.
  - destruct d; discriminate E.
  - change (PyStr.drop_last (String c (String c' r)))
      with (String c (PyStr.drop_last (String c' r))).
    rewrite IH. reflexivity.
Qed.

Lemma app_slash_not_empty (d : string) : String.eqb (d ++ "/") "" = false.
Proof.
  destruct d; reflexivity.
Qed.

Lemma not_endswith_slash (k : string) :
  (forall d, k <> d ++ "/") -> PyStr.endswith_slash k = false.
Proof.
  intro H. destruct (PyStr.endswith_slash k) eqn:E; [| reflexivity].
  exfalso. apply (H (PyStr.drop_last k)). apply endswith_slash_inv. exact E.
Qed.

Lemma shown_as_basename (info : DRSInfo) (base : string) :
  shown_as info base -> basename_of info = Ok (JStr base).
Proof.
  unfold basename_of.
  intros [[Hn Hb] | [Hn [Hs Hk]]].
  - rewrite Hn. cbn [Py.truthy].
    destruct (String.eqb_spec base "") as [E | _]; [contradiction | reflexivity].
  - assert (T : Py.truthy (name info) = false)
      by (destruct Hn as [-> | ->]; reflexivity).
    rewrite T. apply has_slash_no_slash in Hs.
    destruct Hk as [-> | [p ->]].
    + rewrite (last_segment_no_slash base Hs). reflexivity.
    + change ("/" ++ base) with (String PyStr.slash base).
      rewrite last_segment_app, (last_segment_no_slash base Hs). reflexivity.
Qed.

End Shapes.

(** C4.  For a bucket [b] and a record shown as [base] (its name, or the
    last segment of its key when the name is absent): the destinations
    [gs://b] and [gs://b/] give the key [base]; a destination
    [gs://b/dir/] gives [dir/base], the slash that ends it dropped and
    [base] put behind what is left (just [base] when [dir] is empty); and a
    destination whose key is not empty and does not end with a slash gives
    that key as it is, for any record. *)
Theorem resolve_bucket_target_spec
    (env : Env) (b : string) (info : DRSInfo) (base : string) :
  no_slash b ->
  shown_as info base ->
  _resolve_bucket_target env ("gs://" ++ b) info = Ok (b, JStr base)
  /\ _resolve_bucket_target env ("gs://" ++ b ++ "/") info = Ok (b, JStr base)
  /\ (forall dir,
        _resolve_bucket_target env ("gs://" ++ b ++ "/" ++ dir ++ "/") info
        = Ok (b, JStr (if String.eqb dir "" then base else dir ++ "/" ++ base)))
  /\ (forall k other,
        k <> "" -> (forall d, k <> d ++ "/") ->
        _resolve_bucket_target env ("gs://" ++ b ++ "/" ++ k) other
        = Ok (b, JStr k)).
Proof.
  intros Hb Hshown. apply has_slash_no_slash in Hb.
  pose proof (shown_as_basename info base Hshown) as Hbase.
  unfold _resolve_bucket_target. repeat split.
  - rewrite (bucket_name_and_key_no_slash b Hb). cbn [rbind String.eqb orb
      PyStr.endswith_slash].
    rewrite Hbase. reflexivity.
  - change ("gs://" ++ b ++ "/") with ("gs://" ++ b ++ "/" ++ "").
    rewrite (bucket_name_and_key_slash b "" Hb). cbn [rbind String.eqb orb
      PyStr.endswith_slash].
    rewrite Hbase. reflexivity.
  - intro dir. rewrite (bucket_name_and_key_slash b (dir ++ "/") Hb).
    cbn [rbind]. rewrite app_slash_not_empty, endswith_slash_app, drop_last_app.
    cbn [orb]. rewrite Hbase. cbn [rbind fmt].
    destruct (String.eqb dir ""); reflexivity.
  - intros k other Hk Hend. rewrite (bucket_name_and_key_slash b k Hb).
    cbn [rbind]. rewrite (not_endswith_slash k Hend).
    destruct (String.eqb_spec k "") as [E | _]; [contradiction | reflexivity].
Qed.

Lemma resolve_bucket_target_spec_witness :
  _resolve_bucket_target demo_env "gs://dst/" (named "f.txt") = Ok ("dst", JStr "f.txt")
  /\ _resolve_bucket_target demo_env "gs://dst/sub/path.txt" (named "f.txt")
     = Ok ("dst", JStr "sub/path.txt")
  /\ _resolve_bucket_target demo_env "gs://dst/sub/" unnamed
     = Ok ("dst", JStr "sub/object").
Proof.
  assert (D : no_slash "dst") by (apply has_slash_no_slash; reflexivity).
  assert (N : shown_as (named "f.txt") "f.txt")
    by (left; split; [reflexivity | discriminate]).
  assert (U : shown_as unnamed "object").
  { right. split; [left; reflexivity |].
    split; [apply has_slash_no_slash; reflexivity |].
    right. exists "path/to". reflexivity. }
  destruct (resolve_bucket_target_spec demo_env "dst" (named "f.txt") "f.txt" D N)
    as (_ & H2 & _ & H4).
  destruct (resolve_bucket_target_spec demo_env "dst" unnamed "object" D U)
    as (_ & _ & H3 & _).
  split; [exact H2 |]. split.
  - apply (H4 "sub/path.txt" (named "f.txt")).
    + discriminate.
    + intros d E.
      assert (F : PyStr.endswith_slash "sub/path.txt" = PyStr.endswith_slash (d ++ "/"))
        by (rewrite <- E; reflexivity).
      rewrite endswith_slash_app in F. discriminate F.
  - exact (H3 "sub").
Defined.

(** * How long a pair stays memoized *)

Section Lru.

Variable env : Env.







End Lru.


